(** * Verification of the webhook pipeline of faktura-automation (src/index.js)

    Shallow embedding of the first handler of [src/index.js]
    (lines 1-381): the raw-body middleware, the HMAC signature check of
    [app.post('/webhook')], the file discovery, [parseCSVContent], the
    record transformation, [generateInvoiceFile],
    [archiveProcessedFile] and [initializeServer].

    Conventions of the model:
    - bytes are [Z] values in [0, 255]; JS strings that go through
      [Buffer.toString] and [crypto] are lists of Unicode code points;
    - the other JS strings are [String.string], one [ascii] per UTF-16
      code unit (code units below 256);
    - JS numbers are NaN, the two infinities and finite rationals; a
      parsed value is rounded to a double ([Js.to_number]: 53 bits,
      ties to even, subnormals, overflow to an infinity), the sign of a
      zero is not kept;
    - a thrown exception is [None] / an [OThrow]-like outcome. *)

From Stdlib Require Import ZArith List String Ascii Bool Lia QArith.
From Stdlib Require Import Sorting.Sorted Sorting.Permutation.
Import ListNotations.
Open Scope Z_scope.

(* ------------------------------------------------------------------ *)
(** ** Bytes, UTF-8, SHA-256 and HMAC (Node's [Buffer] and [crypto]) *)

Module Bytes.

(** [Buffer.prototype.toString()] : UTF-8 decoding, every ill-formed
    maximal subpart replaced by U+FFFD (WHATWG decoder). *)
Definition FFFD : Z := 65533.

Definition cont (b : Z) : bool := (128 <=? b) && (b <=? 191).

Definition second_ok3 (b0 b1 : Z) : bool :=
  if b0 =? 224 then (160 <=? b1) && (b1 <=? 191)
  else if b0 =? 237 then (128 <=? b1) && (b1 <=? 159)
  else cont b1.

Definition second_ok4 (b0 b1 : Z) : bool :=
  if b0 =? 240 then (144 <=? b1) && (b1 <=? 191)
  else if b0 =? 244 then (128 <=? b1) && (b1 <=? 143)
  else cont b1.

Fixpoint utf8_decode (bs : list Z) : list Z :=
  match bs with
  | [] => []
  | b0 :: r1 =>
    if b0 <? 128 then b0 :: utf8_decode r1
    else if (194 <=? b0) && (b0 <=? 223) then
      match r1 with
      | b1 :: r2 =>
        if cont b1 then ((b0 - 192) * 64 + (b1 - 128)) :: utf8_decode r2
        else FFFD :: utf8_decode r1
      | [] => [FFFD]
      end
    else if (224 <=? b0) && (b0 <=? 239) then
      match r1 with
      | b1 :: r2 =>
        if second_ok3 b0 b1 then
          match r2 with
          | b2 :: r3 =>
            if cont b2 then
              ((b0 - 224) * 4096 + (b1 - 128) * 64 + (b2 - 128)) :: utf8_decode r3
            else FFFD :: utf8_decode r2
          | [] => [FFFD]
          end
        else FFFD :: utf8_decode r1
      | [] => [FFFD]
      end
    else if (240 <=? b0) && (b0 <=? 244) then
      match r1 with
      | b1 :: r2 =>
        if second_ok4 b0 b1 then
          match r2 with
          | b2 :: r3 =>
            if cont b2 then
              match r3 with
              | b3 :: r4 =>
                if cont b3 then
                  ((b0 - 240) * 262144 + (b1 - 128) * 4096
                   + (b2 - 128) * 64 + (b3 - 128)) :: utf8_decode r4
                else FFFD :: utf8_decode r3
              | [] => [FFFD]
              end
            else FFFD :: utf8_decode r2
          | [] => [FFFD]
          end
        else FFFD :: utf8_decode r1
      | [] => [FFFD]
      end
    else FFFD :: utf8_decode r1
  end.

(** String to bytes, as [hmac.update(string)] and [createHmac(alg, string)]
    do it (UTF-8; a lone surrogate becomes U+FFFD). *)
Definition utf8_encode_cp (c : Z) : list Z :=
  if c <? 128 then [c]
  else if c <? 2048 then [192 + c / 64; 128 + c mod 64]
  else if (55296 <=? c) && (c <=? 57343) then [239; 191; 189]
  else if c <? 65536 then
    [224 + c / 4096; 128 + (c / 64) mod 64; 128 + c mod 64]
  else [240 + c / 262144; 128 + (c / 4096) mod 64;
        128 + (c / 64) mod 64; 128 + c mod 64].

Definition utf8_encode (s : list Z) : list Z := flat_map utf8_encode_cp s.

(** Unicode scalar values: the code points a decoded string holds. *)
Definition scalar (c : Z) : Prop :=
  0 <= c < 1114112 /\ ~ (55296 <= c <= 57343).

(** SHA-256 (FIPS 180-4) over 32-bit words held in [Z]. *)
Definition w32 (x : Z) : Z := x mod 4294967296.
Definition rotr (x n : Z) : Z :=
  Z.lor (Z.shiftr x n) (w32 (Z.shiftl x (32 - n))).
Definition ch (x y z : Z) : Z :=
  Z.lxor (Z.land x y) (Z.land (Z.lxor x 4294967295) z).
Definition maj (x y z : Z) : Z :=
  Z.lxor (Z.lxor (Z.land x y) (Z.land x z)) (Z.land y z).
Definition bsig0 (x : Z) : Z := Z.lxor (Z.lxor (rotr x 2) (rotr x 13)) (rotr x 22).
Definition bsig1 (x : Z) : Z := Z.lxor (Z.lxor (rotr x 6) (rotr x 11)) (rotr x 25).
Definition ssig0 (x : Z) : Z := Z.lxor (Z.lxor (rotr x 7) (rotr x 18)) (Z.shiftr x 3).
Definition ssig1 (x : Z) : Z := Z.lxor (Z.lxor (rotr x 17) (rotr x 19)) (Z.shiftr x 10).

Definition K256 : list Z :=
  [1116352408; 1899447441; 3049323471; 3921009573; 961987163; 1508970993;
   2453635748; 2870763221; 3624381080; 310598401; 607225278; 1426881987;
   1925078388; 2162078206; 2614888103; 3248222580; 3835390401; 4022224774;
   264347078; 604807628; 770255983; 1249150122; 1555081692; 1996064986;
   2554220882; 2821834349; 2952996808; 3210313671; 3336571891; 3584528711;
   113926993; 338241895; 666307205; 773529912; 1294757372; 1396182291;
   1695183700; 1986661051; 2177026350; 2456956037; 2730485921; 2820302411;
   3259730800; 3345764771; 3516065817; 3600352804; 4094571909; 275423344;
   430227734; 506948616; 659060556; 883997877; 958139571; 1322822218;
   1537002063; 1747873779; 1955562222; 2024104815; 2227730452; 2361852424;
   2428436474; 2756734187; 3204031479; 3329325298].

Definition H256 : list Z :=
  [1779033703; 3144134277; 1013904242; 2773480762;
   1359893119; 2600822924; 528734635; 1541459225].

Fixpoint be_words (bs : list Z) : list Z :=
  match bs with
  | a :: b :: c :: d :: r => (a * 16777216 + b * 65536 + c * 256 + d) :: be_words r
  | _ => []
  end.

Definition word_bytes (w : Z) : list Z :=
  [w / 16777216 mod 256; w / 65536 mod 256; w / 256 mod 256; w mod 256].

Fixpoint schedule (n : nat) (w : list Z) : list Z :=
  match n with
  | O => w
  | S n' =>
    let l := List.length w in
    let g i := nth (l - i) w 0 in
    schedule n' (w ++ [w32 (ssig1 (g 2%nat) + g 7%nat + ssig0 (g 15%nat) + g 16%nat)])
  end.

Definition round (st : list Z) (k w : Z) : list Z :=
  match st with
  | [a; b; c; d; e; f; g; h] =>
    let t1 := h + bsig1 e + ch e f g + k + w in
    let t2 := bsig0 a + maj a b c in
    [w32 (t1 + t2); a; b; c; w32 (d + t1); e; f; g]
  | _ => st
  end.

Fixpoint rounds (st : list Z) (ks ws : list Z) : list Z :=
  match ks, ws with
  | k :: ks', w :: ws' => rounds (round st k w) ks' ws'
  | _, _ => st
  end.

Definition compress (h : list Z) (block : list Z) : list Z :=
  let ws := schedule 48 (be_words block) in
  map (fun p => w32 (fst p + snd p)) (combine h (rounds h K256 ws)).

Fixpoint blocks (fuel : nat) (h : list Z) (m : list Z) : list Z :=
  match fuel with
  | O => h
  | S fuel' =>
    match m with
    | [] => h
    | _ => blocks fuel' (compress h (firstn 64 m)) (skipn 64 m)
    end
  end.

Definition pad (m : list Z) : list Z :=
  let len := Z.of_nat (List.length m) in
  m ++ [128] ++ repeat 0 (Z.to_nat ((55 - len) mod 64))
    ++ word_bytes ((len * 8) / 4294967296) ++ word_bytes ((len * 8) mod 4294967296).

Definition sha256 (m : list Z) : list Z :=
  let p := pad m in flat_map word_bytes (blocks (List.length p) H256 p).

(** [crypto.createHmac('sha256', key)] (RFC 2104, block size 64). *)
Definition hmac_sha256 (key msg : list Z) : list Z :=
  let k := if Nat.ltb 64 (List.length key) then sha256 key else key in
  let k0 := k ++ repeat 0 (64 - List.length k) in
  sha256 (map (Z.lxor 92) k0 ++ sha256 (map (Z.lxor 54) k0 ++ msg)).

(** [.digest('hex')]: lowercase hexadecimal. *)
Definition hex_digit (n : Z) : ascii :=
  ascii_of_nat (Z.to_nat (if n <? 10 then 48 + n else 87 + n)).

Fixpoint hex (bs : list Z) : string :=
  match bs with
  | [] => EmptyString
  | b :: r => String (hex_digit (b / 16)) (String (hex_digit (b mod 16)) (hex r))
  end.

(** The characters [.digest('hex')] writes: [0-9a-f]. *)
Definition is_hex_lower (c : ascii) : bool :=
  let n := nat_of_ascii c in
  ((Nat.leb 48 n && Nat.leb n 57) || (Nat.leb 97 n && Nat.leb n 102))%bool.

Fixpoint bytes_of_string (s : string) : list Z :=
  match s with
  | EmptyString => []
  | String c r => Z.of_nat (nat_of_ascii c) :: bytes_of_string r
  end.

End Bytes.

(* ------------------------------------------------------------------ *)
(** ** JS strings and numbers *)

Module Js.

(** [String.prototype.trim] and the regex class [\s]: WhiteSpace and
    LineTerminator code units below 256. *)
Definition is_ws (c : ascii) : bool :=
  let n := nat_of_ascii c in
  (Nat.eqb n 9 || Nat.eqb n 10 || Nat.eqb n 11 || Nat.eqb n 12 || Nat.eqb n 13
   || Nat.eqb n 32 || Nat.eqb n 160)%bool.

Fixpoint drop_ws (l : list ascii) : list ascii :=
  match l with
  | c :: r => if is_ws c then drop_ws r else l
  | [] => []
  end.

Definition trim (s : string) : string :=
  string_of_list_ascii (rev (drop_ws (rev (drop_ws (list_ascii_of_string s))))).

(** [s.split(sep)] for a one-character separator. *)
Fixpoint split_aux (sep : ascii) (l : list ascii) (cur : list ascii) : list string :=
  match l with
  | [] => [string_of_list_ascii (rev cur)]
  | c :: r =>
    if Ascii.eqb c sep then string_of_list_ascii (rev cur) :: split_aux sep r []
    else split_aux sep r (c :: cur)
  end.

Definition split (sep : ascii) (s : string) : list string :=
  split_aux sep (list_ascii_of_string s) [].

(** [s.toLowerCase()]; only ASCII letters change case among the code
    units that decide [endsWith('.csv')]. *)
Definition lower_char (c : ascii) : ascii :=
  let n := nat_of_ascii c in
  if (Nat.leb 65 n && Nat.leb n 90)%bool then ascii_of_nat (n + 32) else c.

Definition to_lower (s : string) : string :=
  string_of_list_ascii (map lower_char (list_ascii_of_string s)).

(** [s.endsWith(suffix)]. *)
Definition ends_with (suffix s : string) : bool :=
  let n := String.length s in
  let k := String.length suffix in
  (Nat.leb k n && String.eqb (substring (n - k) k s) suffix)%bool.

Definition is_digit (c : ascii) : bool :=
  let n := nat_of_ascii c in (Nat.leb 48 n && Nat.leb n 57)%bool.

Fixpoint digits_value (acc : Z) (l : list ascii) : Z :=
  match l with
  | [] => acc
  | c :: r => digits_value (acc * 10 + (Z.of_nat (nat_of_ascii c) - 48)) r
  end.

(** Longest prefix of decimal digits, and the rest. *)
Fixpoint take_digits (l : list ascii) : list ascii * list ascii :=
  match l with
  | c :: r =>
    if is_digit c then let (d, rest) := take_digits r in (c :: d, rest) else ([], l)
  | [] => ([], [])
  end.

(** JS numbers: NaN, the infinities and finite values (the double's
    exact value, reduced). *)
Inductive jsnum := NaN | Inf (neg : bool) | Fin (q : Q).

(** [x || 0] on a number. *)
Definition or_zero (n : jsnum) : jsnum :=
  match n with
  | NaN => Fin 0
  | Fin q => if Qeq_bool q 0 then Fin 0 else Fin q
  | Inf b => Inf b
  end.

(** [x / y] rounded to the nearest integer, ties to even ([y > 0]). *)
Definition round_div (x y : Z) : Z :=
  let q := x / y in
  let r := x mod y in
  if 2 * r <? y then q
  else if y <? 2 * r then q + 1
  else if Z.even q then q else q + 1.

(** [floor (log2 (a / d))] for [a, d > 0]. *)
Definition floor_log2 (a d : Z) : Z :=
  let k := Z.log2 a - Z.log2 d in
  if (if 0 <=? k then d * 2 ^ k <=? a else d <=? a * 2 ^ (- k)) then k else k - 1.

(** "The Number value for x" (ECMAScript 6.1.6.1): the double nearest to
    the exact value [q], ties to even. The significand [m] has 53 bits at
    the exponent [e] of [q], [e] is at least -1074 (subnormals), and a
    magnitude that rounds to 2^1024 or more (from 2^1024 - 2^970 on) is an
    infinity. *)
Definition to_number (q : Q) : jsnum :=
  let n := Qnum q in
  let d := Zpos (Qden q) in
  let a := Z.abs n in
  let e := Z.max (floor_log2 a d - 52) (-1074) in
  let m := if 0 <=? e then round_div a (d * 2 ^ e) else round_div (a * 2 ^ (- e)) d in
  let big := if 0 <=? e then 2 ^ 1024 <=? m * 2 ^ e else 2 ^ (1024 - e) <=? m in
  if big then Inf (n <? 0) else
  let sm := if n <? 0 then - m else m in
  Fin (Qred (if 0 <=? e then inject_Z (sm * 2 ^ e) else Qmake sm (Z.to_pos (2 ^ (- e))))).

(** [ToString] of a value read from a parsed CSV row: a string, or
    [undefined] for a missing key. *)
Definition to_string (v : option string) : string :=
  match v with Some s => s | None => "undefined"%string end.

(** An optional leading sign: [true] for a minus. *)
Definition sign_prefix (l : list ascii) : bool * list ascii :=
  match l with
  | c :: r =>
    if Ascii.eqb c "-" then (true, r) else if Ascii.eqb c "+" then (false, r) else (false, l)
  | [] => (false, [])
  end.

(** [parseInt(v, 10)] (ECMAScript 19.2.5): leading white space, an
    optional sign, the longest prefix of decimal digits, whose value is
    rounded to a Number (V8 rounds every digit in; the specification
    also allows zeroing the digits after the 20th). *)
Definition parseInt10 (v : option string) : jsnum :=
  let l := drop_ws (list_ascii_of_string (to_string v)) in
  let '(neg, l1) := sign_prefix l in
  let sgn := if neg then -1 else 1 in
  match take_digits l1 with
  | ([], _) => NaN
  | (d, _) => to_number (inject_Z (sgn * digits_value 0 d))
  end.

Fixpoint starts_with (p l : list ascii) : bool :=
  match p, l with
  | [], _ => true
  | c :: p', d :: l' => (Ascii.eqb c d && starts_with p' l')%bool
  | _ :: _, [] => false
  end.

(** Value of [d1.d2] times [10^e], reduced. *)
Definition dec_value (d1 d2 : list ascii) (e : Z) : Q :=
  let m := digits_value 0 (d1 ++ d2) in
  let k := Z.of_nat (List.length d2) in
  Qred (if 0 <=? e - k then inject_Z (m * 10 ^ (e - k))
        else Qmake m (Z.to_pos (10 ^ (k - e)))).

(** [parseFloat(s)] (ECMAScript 19.2.4): leading white space, then the
    longest prefix that is a StrDecimalLiteral, whose value is rounded
    to a Number. *)
Definition parseFloat (s : string) : jsnum :=
  let l := drop_ws (list_ascii_of_string s) in
  let '(neg, l1) := sign_prefix l in
  if starts_with (list_ascii_of_string "Infinity") l1 then Inf neg else
  let '(d1, l2) := take_digits l1 in
  let '(d2, l3) :=
    match l2 with
    | c :: r => if Ascii.eqb c "." then take_digits r else ([], l2)
    | [] => ([], [])
    end in
  match d1, d2 with
  | [], [] => NaN
  | _, _ =>
    let e :=
      match l3 with
      | c :: r =>
        if (Ascii.eqb c "e" || Ascii.eqb c "E")%bool then
          let '(eneg, r1) := sign_prefix r in
          match take_digits r1 with
          | ([], _) => 0
          | (de, _) => (if eneg then -1 else 1) * digits_value 0 de
          end
        else 0
      | [] => 0
      end in
    let q := dec_value d1 d2 e in
    to_number (if neg then - q else q)
  end.

End Js.

(* ------------------------------------------------------------------ *)
(** ** [parseCSVContent] and the record transformation *)

Module Csv.
Import Js.

(** The double-quote character. *)
Definition dq : ascii := ascii_of_nat 34.

(** [value.replace(/^"|"$/g, '')]: one leading and one trailing double
    quote; a lone double quote is removed once. *)
Definition strip_quotes (s : string) : string :=
  let l := list_ascii_of_string s in
  let lead := match l with c :: _ => Ascii.eqb c dq | [] => false end in
  let l1 := if lead then tl l else l in
  let trail :=
    match rev l with
    | c :: _ => (Ascii.eqb c dq && negb (lead && Nat.eqb (List.length l) 1))%bool
    | [] => false
    end in
  string_of_list_ascii (if trail then removelast l1 else l1).

Fixpoint collapse_ws (l : list ascii) (in_ws : bool) : list ascii :=
  match l with
  | [] => []
  | c :: r =>
    if is_ws c then (if in_ws then collapse_ws r true else "_"%char :: collapse_ws r true)
    else c :: collapse_ws r false
  end.

Definition is_word (c : ascii) : bool :=
  let n := nat_of_ascii c in
  (is_digit c || (Nat.leb 65 n && Nat.leb n 90) || (Nat.leb 97 n && Nat.leb n 122)
   || Nat.eqb n 95)%bool.

(** [mapHeaders]: trim, drop double quotes and backslashes, [\s+] to [_], drop every
    character outside [a-zA-Z0-9_], lowercase. *)
Definition mapHeader (h : string) : string :=
  let l := list_ascii_of_string (trim h) in
  let l1 := filter (fun c => negb (Ascii.eqb c dq || Ascii.eqb c "\")%bool) l in
  let l2 := collapse_ws l1 false in
  let l3 := filter is_word l2 in
  to_lower (string_of_list_ascii l3).

(** The characters a mapped header consists of: [a-z0-9_]. *)
Definition is_key_char (c : ascii) : bool :=
  let n := nat_of_ascii c in
  (is_digit c || (Nat.leb 97 n && Nat.leb n 122) || Nat.eqb n 95)%bool.

(** [mapValues] on a string value. *)
Definition mapValue (v : string) : string := trim (strip_quotes v).

(** The pre-cleaning of the raw text before it is fed to the parser. *)
Definition clean_csv (csvData : string) : string :=
  concat (String "010" EmptyString)
    (map (fun line => strip_quotes (trim line)) (split "010"%char csvData)).

(** A parsed row as the JS object csv-parser builds: header/value pairs
    in column order; a later duplicate key overwrites an earlier one. *)
Definition record := list (string * string).

Definition get (k : string) (r : record) : option string :=
  fold_left (fun acc kv => if String.eqb (fst kv) k then Some (snd kv) else acc) r None.

Definition map_row (row : list (string * string)) : record :=
  map (fun kv => (mapHeader (fst kv), mapValue (snd kv))) row.

(** [str.replace(/[^0-9,]/g, '')] keeps these characters. *)
Definition keep_num_char (c : ascii) : bool := (is_digit c || Ascii.eqb c ",")%bool.

(** [.replace(',', '.')]: the first comma only. *)
Fixpoint replace_first_comma (l : list ascii) : list ascii :=
  match l with
  | [] => []
  | c :: r => if Ascii.eqb c "," then "."%char :: r else c :: replace_first_comma r
  end.

(** [parseNumber] of the transformer; [None] is the TypeError of
    [undefined.replace]. *)
Definition parseNumber (str : option string) : option jsnum :=
  match str with
  | None => None
  | Some s =>
    let cleaned := replace_first_comma (filter keep_num_char (list_ascii_of_string s)) in
    Some (match cleaned with
          | [] => Fin 0
          | _ => parseFloat (string_of_list_ascii cleaned)
          end)
  end.

(** [item.locations.split('-').map(l => l.trim())]. *)
Definition parseLocations (v : option string) : option (list string) :=
  match v with
  | None => None
  | Some s => Some (map trim (split "-"%char s))
  end.

Record product := {
  fileName : string;
  productId : option string;
  style : option string;
  productName : option string;
  size : option string;
  amount : jsnum;
  locations : list string;
  purchasePriceDKK : jsnum;
  rrp : jsnum;
  tariffCode : option string;
  countryOfOrigin : option string
}.

(** The callback of [parsedData.map(item => ...)]; [None] when it throws. *)
Definition transform_item (name : string) (item : record) : option product :=
  match parseLocations (get "locations" item),
        parseNumber (get "purchase_price_dkk" item),
        parseNumber (get "rrp" item) with
  | Some locs, Some ppd, Some r =>
    Some {| fileName := name;
            productId := get "product_id" item;
            style := get "style" item;
            productName := get "name" item;
            size := get "size" item;
            amount := or_zero (parseInt10 (get "amount" item));
            locations := locs;
            purchasePriceDKK := ppd;
            rrp := r;
            tariffCode := get "tariff_code" item;
            countryOfOrigin := get "country_of_origin" item |}
  | _, _, _ => None
  end.

Fixpoint transform_all (name : string) (items : list record) : option (list product) :=
  match items with
  | [] => Some []
  | it :: r =>
    match transform_item name it with
    | None => None
    | Some p => match transform_all name r with
                | None => None
                | Some ps => Some (p :: ps)
                end
    end
  end.

End Csv.

(* ------------------------------------------------------------------ *)
(** ** The webhook handler *)

Module Pipeline.
Import Bytes Js Csv.

(** Worksheet cells, addressed by (column, row); column 0 is A, rows
    start at 1 as in A1 notation. *)
Inductive cell := CStr (s : string) | CNum (n : jsnum).
Definition sheet := (Z * Z) -> option cell.

Definition set_cell (ws : sheet) (a : Z * Z) (v : cell) : sheet :=
  fun a' => if ((fst a' =? fst a) && (snd a' =? snd a))%bool then Some v else ws a'.

(** [XLSX.utils.sheet_add_aoa(ws, [row], { origin })] for one row:
    [null] and [undefined] entries ([None]) are skipped, the others
    overwrite the cell. *)
Fixpoint sheet_add_row (ws : sheet) (row : list (option cell)) (c r : Z) : sheet :=
  match row with
  | [] => ws
  | v :: rest =>
    sheet_add_row (match v with None => ws | Some x => set_cell ws (c, r) x end) rest (c + 1) r
  end.

(** A [files/list_folder] entry. *)
Record entry := {
  tag : string;               (* ['.tag'] *)
  name : string;
  path_display : string;
  server_modified : Z         (* [new Date(server_modified)], in ms *)
}.

(** Operations on the remote file store as seen by the handler; [None] /
    [false] is a rejected promise. *)
Record ext := {
  list_folder : string -> Z -> option (list entry);   (* files/list_folder *)
  fetch_text : string -> option string;               (* temporary link + axios *)
  fetch_template : string -> option sheet;            (* downloadFile + XLSX.read, first sheet *)
  upload : string -> sheet -> bool;                   (* files/upload *)
  move : string -> string -> bool;                    (* files/move_v2 *)
  csv_rows : string -> option (list (list (string * string)));
                                                      (* csv-parser, separator ';' *)
  now_ms : Z;                                         (* Date.now() *)
  now_iso : string;                                   (* new Date().toISOString() *)
  json_ok : list Z -> bool;                           (* express.json accepts the body *)
  media_ok : bool                                     (* express.json accepts charset and encoding *)
}.

(** [CONFIG]. *)
Record config := {
  app_secret : list Z;          (* DROPBOX_APP_SECRET, as code points *)
  input_folder : string;
  processed_folder : string
}.

Definition WEBHOOK_DELAY : Z := 2000.

(** Observable steps of a run: remote-store calls, the delay, parsing. *)
Inductive event :=
| EvDelay (ms : Z)
| EvList (path : string) (limit : Z)
| EvDownload (path : string)
| EvParse
| EvUpload (path : string) (content : sheet)
| EvMove (from_path to_path : string).

(** A state-and-exception monad: the trace so far, [None] when the async
    function throws. *)
Definition M (A : Type) : Type := list event -> list event * option A.

Definition ret {A} (a : A) : M A := fun tr => (tr, Some a).
Definition throw {A} : M A := fun tr => (tr, None).
Definition bind {A B} (m : M A) (k : A -> M B) : M B :=
  fun tr => match m tr with
            | (tr', Some a) => k a tr'
            | (tr', None) => (tr', None)
            end.
Definition emit (e : event) : M unit := fun tr => (tr ++ [e], Some tt).
Definition lift {A} (o : option A) : M A :=
  match o with Some a => ret a | None => throw end.
Definition check (b : bool) : M unit := if b then ret tt else throw.

Declare Scope m_scope.
Notation "x <- m ;; k" := (bind m (fun x => k))
  (at level 61, m at next level, right associativity) : m_scope.
Notation "m ;; k" := (bind m (fun _ => k))
  (at level 61, right associativity) : m_scope.
Open Scope m_scope.

(** Selection: [.filter(f => f['.tag'] === 'file' &&
    f.name.toLowerCase().endsWith('.csv'))]. *)
Definition is_csv_file (e : entry) : bool :=
  (String.eqb (tag e) "file" && ends_with ".csv" (to_lower (name e)))%bool.

(** [.sort((a, b) => new Date(b.server_modified) - new Date(a.server_modified))]:
    [Array.prototype.sort] is stable, so for this comparator its result is
    the stable descending order, computed here by insertion. *)
Fixpoint insert_desc (e : entry) (l : list entry) : list entry :=
  match l with
  | [] => [e]
  | x :: r =>
    if server_modified e <=? server_modified x then x :: insert_desc e r else e :: l
  end.

Definition sort_desc (l : list entry) : list entry :=
  fold_left (fun acc e => insert_desc e acc) l [].

Definition csv_files (entries : list entry) : list entry :=
  sort_desc (filter is_csv_file entries).

(** [products[0].fileName.replace(/\.csv$/, '')]. *)
Definition strip_csv (s : string) : string :=
  if ends_with ".csv" s then substring 0 (String.length s - 4) s else s.

Definition invoice_row (p : product) : list (option cell) :=
  [option_map CStr (productId p); option_map CStr (style p);
   option_map CStr (productName p); None;
   Some (CNum (amount p)); Some (CNum (rrp p))].

(** The sheet edits of [generateInvoiceFile]. *)
Fixpoint add_products (ws : sheet) (ps : list product) (row : Z) : sheet :=
  match ps with
  | [] => ws
  | p :: r => add_products (sheet_add_row ws (invoice_row p) 0 row) r (row + 1)
  end.

Definition fill_invoice (ws : sheet) (baseName : string) (ps : list product) : sheet :=
  add_products (sheet_add_row ws [Some (CStr baseName)] 1 5) ps 13.

Definition iso_clean (s : string) : string :=
  string_of_list_ascii
    (map (fun c => if (Ascii.eqb c ":" || Ascii.eqb c ".")%bool then "-"%char else c)
         (list_ascii_of_string s)).

Definition TEMPLATE_PATH : string := "/template/Invoice-template.xlsx".

Definition generateInvoiceFile (x : ext) (products : list product) : M unit :=
  emit (EvDownload TEMPLATE_PATH) ;;
  worksheet <- lift (fetch_template x TEMPLATE_PATH) ;;
  p0 <- lift (hd_error products) ;;
  let baseName := strip_csv (fileName p0) in
  let ws := fill_invoice worksheet baseName products in
  let destinationPath :=
    ("/Teamsport-Invoice/" ++ baseName ++ "_" ++ iso_clean (now_iso x) ++ ".xlsx")%string in
  emit (EvUpload destinationPath ws) ;;
  check (upload x destinationPath ws).

(** Decimal rendering of a non-negative integer, as in a template literal;
    this is JS's [String(n)] below 2^53 (above, JS prints the shortest
    digits that round to the double). *)
Fixpoint digits_of (fuel : nat) (n : Z) (acc : string) : string :=
  match fuel with
  | O => acc
  | S f =>
    let acc' := String (ascii_of_nat (Z.to_nat (48 + n mod 10))) acc in
    if n <? 10 then acc' else digits_of f (n / 10) acc'
  end.

Definition z_to_string (n : Z) : string :=
  if n <? 0 then String "-" (digits_of 64 (- n) EmptyString)
  else digits_of 64 n EmptyString.

(** [path.basename] of a path without trailing slash. *)
Definition basename (p : string) : string := last (split "/"%char p) p.

Definition archiveProcessedFile (cfg : config) (x : ext) (sourcePath : string) : M unit :=
  let destinationPath :=
    (processed_folder cfg ++ "/" ++ basename sourcePath ++ "_"
     ++ z_to_string (now_ms x) ++ ".csv")%string in
  emit (EvMove sourcePath destinationPath) ;;
  check (move x sourcePath destinationPath).

Definition downloadCSVFile (x : ext) (filePath : string) : M string :=
  emit (EvDownload filePath) ;;
  lift (fetch_text x filePath).

Definition parseCSVContent (x : ext) (csvData : string) : M (list record) :=
  emit EvParse ;;
  rows <- lift (csv_rows x (clean_csv csvData)) ;;
  ret (map map_row rows).

Definition response : Type := Z * string.

(** [signature !== expectedSignature], the header being [undefined]
    when absent. *)
Definition sig_matches (signature : option string) (expected : string) : bool :=
  match signature with Some s => String.eqb s expected | None => false end.

Definition expected_signature (cfg : config) (rawBody : list Z) : string :=
  hex (hmac_sha256 (utf8_encode (app_secret cfg)) (utf8_encode rawBody)).

(** The body of the [try] of [app.post('/webhook')]; [rawBody] is
    [undefined] ([None]) when the JSON middleware did not run, and then
    [.update(undefined)] throws. *)
Definition webhook (cfg : config) (x : ext) (rawBody : option (list Z))
    (signature : option string) : M response :=
  match rawBody with
  | None => throw
  | Some body =>
    if negb (sig_matches signature (expected_signature cfg body))
    then ret (403, "Unauthorized"%string)
    else
      emit (EvDelay WEBHOOK_DELAY) ;;
      emit (EvList (input_folder cfg) 10) ;;
      folderContents <- lift (list_folder x (input_folder cfg) 10) ;;
      match csv_files folderContents with
      | [] => ret (200, "No files to process"%string)
      | targetFile :: _ =>
        csvContent <- downloadCSVFile x (path_display targetFile) ;;
        parsedData <- parseCSVContent x csvContent ;;
        products <- lift (transform_all (name targetFile) parsedData) ;;
        (if Nat.ltb 0 (List.length products) then generateInvoiceFile x products
         else ret tt) ;;
        archiveProcessedFile cfg x (path_display targetFile) ;;
        ret (200, "Processing complete"%string)
      end
  end.

(** The [catch] of the handler. *)
Definition handle (cfg : config) (x : ext) (rawBody : option (list Z))
    (signature : option string) : list event * response :=
  match webhook cfg x rawBody signature [] with
  | (tr, Some r) => (tr, r)
  | (tr, None) => (tr, (500, "Internal server error"%string))
  end.

(** An incoming POST: whether [express.json] handles it (JSON content
    type with a body), the body bytes (after any Content-Encoding is
    undone) and the signature header. *)
Record request := {
  is_json : bool;
  body : list Z;
  sig_header : option string
}.

(** The default [limit] of [express.json], 100kb. *)
Definition JSON_LIMIT : Z := 102400.

(** The error [express.json] answers a JSON request with when it does not
    accept it ([json_ok] false), in the order body-parser checks: 415
    when the charset is not a utf-* one it can decode or the
    Content-Encoding is one it cannot inflate ([media_ok] false), 413 for
    a body over the limit, 400 otherwise (JSON.parse fails, or the value
    is not an object or array). The body finalhandler sends is an HTML
    page; the status message stands for it. *)
Definition body_error (x : ext) (req : request) : response :=
  if negb (media_ok x) then (415, "Unsupported Media Type"%string)
  else if JSON_LIMIT <? Z.of_nat (List.length (body req)) then (413, "Payload Too Large"%string)
  else (400, "Bad Request"%string).

(** [express.json({ verify })] followed by the route. [json_ok] is the
    middleware's acceptance of the request: charset and encoding
    accepted, at most [JSON_LIMIT] bytes, and a body JSON.parse accepts.
    Only then has [verify] stored [buf.toString()] in [req.rawBody] and
    the route runs; otherwise the middleware answers with [body_error]. *)
Definition serve (cfg : config) (x : ext) (req : request) : list event * response :=
  if is_json req then
    let rawBody := utf8_decode (body req) in
    if json_ok x rawBody then handle cfg x (Some rawBody) (sig_header req)
    else ([], body_error x req)
  else handle cfg x None (sig_header req).

End Pipeline.

(* ------------------------------------------------------------------ *)
(** ** Server initialisation *)

Module Startup.

(** The variables of [process.env] the configuration reads. *)
Record env := {
  PORT : option string;
  DROPBOX_TOKEN : option string;
  DROPBOX_APP_SECRET : option string;
  DROPBOX_INPUT_FOLDER : option string;
  DROPBOX_PROCESSED_FOLDER : option string
}.

(** JS truthiness of an environment value: [undefined] and [''] are falsy. *)
Definition truthy (v : option string) : bool :=
  match v with Some s => negb (String.eqb s EmptyString) | None => false end.

(** [v || d] on an environment value. *)
Definition or_default (v : option string) (d : string) : string :=
  match v with Some s => if truthy v then s else d | None => d end.

Definition SERVER_PORT (e : env) : string := or_default (PORT e) "8080".
Definition INPUT_FOLDER (e : env) : string :=
  or_default (DROPBOX_INPUT_FOLDER e) "/csv-filer".
Definition PROCESSED_FOLDER (e : env) : string :=
  or_default (DROPBOX_PROCESSED_FOLDER e) "/processed-csv-files".

(** The remote calls and the [app.listen] of the start-up. *)
Inductive init_event := InitList (path : string) | Listen (port : string).

(** [initializeServer()] with its [.catch]: the events and, when it
    rejects (and the process exits with status 1), the error message.
    [probe] answers the [files/list_folder] call: [None] on success,
    [Some message] on error. *)
Definition initializeServer (e : env) (probe : string -> option string) :
    list init_event * option string :=
  if (negb (truthy (DROPBOX_TOKEN e)) || negb (truthy (DROPBOX_APP_SECRET e)))%bool then
    ([], Some "Missing required Dropbox environment variables"%string)
  else
    match probe (INPUT_FOLDER e) with
    | Some msg =>
      ([InitList (INPUT_FOLDER e)], Some ("Dropbox connection failed: " ++ msg)%string)
    | None => ([InitList (INPUT_FOLDER e); Listen (SERVER_PORT e)], None)
    end.

End Startup.

(* ------------------------------------------------------------------ *)
(** ** Concrete inputs for runs of the handler *)

Module Fixtures.
Import Bytes Js Csv Pipeline.

(** A csv-parser stand-in for concrete runs: lines on LF, cells on ';',
    no quoting. *)
Definition simple_rows (text : string) : option (list (list (string * string))) :=
  match split "010"%char text with
  | [] => Some []
  | h :: rows =>
    let hs := split ";"%char h in
    Some (map (fun r => combine hs (split ";"%char r))
              (filter (fun r => negb (String.eqb r EmptyString)) rows))
  end.

Definition sample_csv : string :=
  ("Product Id;Style;Name;Size;Amount;Locations;Purchase Price DKK;RRP;Tariff Code;Country of Origin" ++
   String "010" (String dq "P1") ++ String dq ";" ++ String dq "S1" ++ String dq ";"
   ++ String dq "Widget" ++ String dq ";" ++ String dq "M" ++ String dq ";"
   ++ String dq "10" ++ String dq ";" ++ String dq "A-B" ++ String dq ";"
   ++ String dq "100,00" ++ String dq ";" ++ String dq "150,00" ++ String dq ";"
   ++ String dq "8471" ++ String dq ";" ++ String dq "DK" ++ String dq EmptyString)%string.

Definition e1 : entry := {| tag := "file"; name := "Customer_Order.csv";
  path_display := "/csv-filer/Customer_Order.csv"; server_modified := 5 |}.

Definition cfg0 : config := {| app_secret := bytes_of_string "k";
  input_folder := "/csv-filer"; processed_folder := "/processed-csv-files" |}.

Definition ext0 : ext := {|
  list_folder := fun _ _ => Some [e1];
  fetch_text := fun _ => Some sample_csv;
  fetch_template := fun _ => Some (fun _ => None);
  upload := fun _ _ => true;
  move := fun _ _ => true;
  csv_rows := simple_rows;
  now_ms := 1700000000000;
  now_iso := "2024-01-01T00:00:00.000Z";
  json_ok := fun _ => true;
  media_ok := true |}.

Definition body0 : list Z := bytes_of_string "{}".

Definition req0 : request := {| is_json := true; body := body0;
  sig_header := Some (hex (hmac_sha256 (bytes_of_string "k") body0)) |}.

Definition kind (e : event) : string :=
  match e with
  | EvDelay _ => "delay" | EvList _ _ => "list" | EvDownload p => "download " ++ p
  | EvParse => "parse" | EvUpload p _ => "upload " ++ p | EvMove f t => "move " ++ t
  end.

(** Two bodies differing in one byte that is not well-formed UTF-8:
    [["\xFF"]] and [["\xFE"]]. *)
Definition body_ff : list Z := [91; 34; 255; 34; 93].
Definition body_fe : list Z := [91; 34; 254; 34; 93].


(** Parsed rows with one field missing or a signed amount. *)
Definition item_no_price : record :=
  [("locations", "A-B"); ("rrp", "150,00"); ("amount", "1")]%string.
Definition item_no_locations : record :=
  [("purchase_price_dkk", "100,00"); ("rrp", "150,00"); ("amount", "1")]%string.
Definition item_negative : record :=
  [("locations", "A"); ("purchase_price_dkk", "1"); ("rrp", "2"); ("amount", "-5")]%string.

(** A store whose input folder holds a sub-folder and a text file only. *)
Definition ext_nocsv : ext := {|
  list_folder := fun _ _ => Some
    [ {| tag := "folder"; name := "old.csv"; path_display := "/csv-filer/old.csv";
         server_modified := 0 |};
      {| tag := "file"; name := "notes.txt"; path_display := "/csv-filer/notes.txt";
         server_modified := 9 |} ];
  fetch_text := fun _ => None;
  fetch_template := fun _ => None;
  upload := fun _ _ => false;
  move := fun _ _ => false;
  csv_rows := fun _ => None;
  now_ms := 0;
  now_iso := EmptyString;
  json_ok := fun _ => true;
  media_ok := true |}.

(** A product as the transformer builds it from a row without a name. *)
Definition prod1 : product := {|
  fileName := "Customer_Order.csv"; productId := Some "P1"; style := Some "S1";
  productName := None; size := Some "M"; amount := Fin 10; locations := ["A"; "B"];
  purchasePriceDKK := Fin 100; rrp := Fin 150; tariffCode := None;
  countryOfOrigin := None |}%string.

(** [ext0] whose JSON middleware refuses the body. *)
Definition ext_reject : ext := {|
  list_folder := list_folder ext0; fetch_text := fetch_text ext0;
  fetch_template := fetch_template ext0; upload := upload ext0; move := move ext0;
  csv_rows := csv_rows ext0; now_ms := now_ms ext0; now_iso := now_iso ext0;
  json_ok := fun _ => false; media_ok := true |}.

(** A JSON request one byte over the limit. *)
Definition req_big : request := {|
  is_json := true; body := repeat 32 (Z.to_nat JSON_LIMIT + 1); sig_header := None |}.

(** An environment whose app secret is set but empty. *)
Definition env0 : Startup.env := {| Startup.PORT := None;
  Startup.DROPBOX_TOKEN := Some "t"%string;
  Startup.DROPBOX_APP_SECRET := Some EmptyString;
  Startup.DROPBOX_INPUT_FOLDER := None;
  Startup.DROPBOX_PROCESSED_FOLDER := None |}.

End Fixtures.

(* ------------------------------------------------------------------ *)
(** ** Evaluation checks *)

Module BytesTests.
Import Bytes.
Example sha256_abc :
  hex (sha256 (bytes_of_string "abc")) =
  "ba7816bf8f01cfea414140de5dae2223b00361a396177a9cb410ff61f20015ad"%string.
Proof. vm_compute. reflexivity. Qed.

Example hmac_rfc4231_case2 :
  hex (hmac_sha256 (bytes_of_string "Jefe")
         (bytes_of_string "what do ya want for nothing?")) =
  "5bdcc146bf60754e6a042426089575c75a003f089d2739839dec58b964ec3843"%string.
Proof. vm_compute. reflexivity. Qed.
End BytesTests.

Module JsTests.
Import Js Csv.
Example pn1 : parseNumber (Some "123,45"%string) = Some (to_number (12345 # 100)).
Proof. vm_compute. reflexivity. Qed.
Example pn2 : parseNumber (Some "1.234,56"%string) = Some (to_number (123456 # 100)).
Proof. vm_compute. reflexivity. Qed.
Example pn3 : parseNumber (Some "abc"%string) = Some (Fin 0).
Proof. vm_compute. reflexivity. Qed.
Example pn4 : parseNumber (Some ","%string) = Some NaN.
Proof. vm_compute. reflexivity. Qed.
Example pi1 : or_zero (parseInt10 (Some "7"%string)) = Fin 7.
Proof. vm_compute. reflexivity. Qed.
Example pi2 : or_zero (parseInt10 (Some " -5x"%string)) = Fin (-5).
Proof. vm_compute. reflexivity. Qed.
Example pi3 : or_zero (parseInt10 None) = Fin 0.
Proof. vm_compute. reflexivity. Qed.
Example loc1 : parseLocations (Some "A-B - C"%string) = Some ["A"; "B"; "C"]%string.
Proof. vm_compute. reflexivity. Qed.
Example mh1 : mapHeader (String dq ("Purchase  Price DKK" ++ String dq " "))%string = "purchase_price_dkk"%string.
Proof. vm_compute. reflexivity. Qed.
Example sq1 : strip_quotes (String dq EmptyString) = EmptyString.
Proof. vm_compute. reflexivity. Qed.
Example sq2 : strip_quotes (String dq ("P1" ++ String dq EmptyString))%string = "P1"%string.
Proof. vm_compute. reflexivity. Qed.
Example pf1 : parseFloat "12.5e2x" = Fin 1250.
Proof. vm_compute. reflexivity. Qed.
Example pn5 : parseNumber (Some "123,45"%string) =
  Some (Fin (Qred (8687021468732621 # 70368744177664))).
Proof. vm_compute. reflexivity. Qed.
Example pi4 : parseInt10 (Some "9007199254740993"%string) = Fin 9007199254740992.
Proof. vm_compute. reflexivity. Qed.
Example pf2 : parseFloat (string_of_list_ascii ("1"%char :: repeat "0"%char 309)) = Inf false.
Proof. vm_compute. reflexivity. Qed.
End JsTests.

Module RunTests.
Import Bytes Js Csv Pipeline Fixtures.
Example run0_cells :
  match fst (serve cfg0 ext0 req0) with
  | [_; _; _; _; _; EvUpload _ ws; _] =>
    [ws (1, 5); ws (0, 13); ws (1, 13); ws (2, 13); ws (3, 13); ws (4, 13); ws (5, 13)]
  | _ => []
  end =
  [Some (CStr "Customer_Order"); Some (CStr "P1"); Some (CStr "S1");
   Some (CStr "Widget"); None; Some (CNum (Fin 10)); Some (CNum (Fin 150))]%string.
Proof. vm_compute. reflexivity. Qed.
Example mw400 : serve cfg0 ext_reject req0 = ([], (400, "Bad Request"%string)).
Proof. vm_compute. reflexivity. Qed.
Example mw413 : serve cfg0 ext_reject req_big = ([], (413, "Payload Too Large"%string)).
Proof. vm_compute. reflexivity. Qed.
Example mw415 :
  serve cfg0 {| list_folder := list_folder ext0; fetch_text := fetch_text ext0;
    fetch_template := fetch_template ext0; upload := upload ext0; move := move ext0;
    csv_rows := csv_rows ext0; now_ms := now_ms ext0; now_iso := now_iso ext0;
    json_ok := fun _ => false; media_ok := false |} req0 =
  ([], (415, "Unsupported Media Type"%string)).
Proof. vm_compute. reflexivity. Qed.
End RunTests.

(* ------------------------------------------------------------------ *)
(** ** Facts about the model *)

Module BytesFacts.
Import Bytes.

Lemma dec1 b0 rest : 0 <= b0 < 128 ->
  utf8_decode (b0 :: rest) = b0 :: utf8_decode rest.
Proof.
  intros H. cbn [utf8_decode].
  replace (b0 <? 128) with true by (symmetry; apply Z.ltb_lt; lia). reflexivity.
Qed.

Lemma range_true a x b : a <= x <= b -> (a <=? x) && (x <=? b) = true.
Proof. intros H. apply andb_true_intro; split; apply Z.leb_le; lia. Qed.

Lemma range_false_hi a x b : b < x -> (a <=? x) && (x <=? b) = false.
Proof. intros H. apply andb_false_intro2; apply Z.leb_gt; lia. Qed.

Lemma dec2 b0 b1 rest : 194 <= b0 <= 223 -> 128 <= b1 <= 191 ->
  utf8_decode (b0 :: b1 :: rest) = ((b0 - 192) * 64 + (b1 - 128)) :: utf8_decode rest.
Proof.
  intros H0 H1. cbn [utf8_decode]. unfold cont.
  replace (b0 <? 128) with false by (symmetry; apply Z.ltb_ge; lia).
  rewrite (range_true 194 b0 223), (range_true 128 b1 191) by lia. reflexivity.
Qed.

Lemma dec3 b0 b1 b2 rest :
  224 <= b0 <= 239 -> second_ok3 b0 b1 = true -> 128 <= b2 <= 191 ->
  utf8_decode (b0 :: b1 :: b2 :: rest) =
  ((b0 - 224) * 4096 + (b1 - 128) * 64 + (b2 - 128)) :: utf8_decode rest.
Proof.
  intros H0 H1 H2. cbn [utf8_decode]. unfold cont.
  replace (b0 <? 128) with false by (symmetry; apply Z.ltb_ge; lia).
  rewrite (range_false_hi 194 b0 223), (range_true 224 b0 239), H1,
    (range_true 128 b2 191) by lia.
  reflexivity.
Qed.

Lemma dec4 b0 b1 b2 b3 rest :
  240 <= b0 <= 244 -> second_ok4 b0 b1 = true ->
  128 <= b2 <= 191 -> 128 <= b3 <= 191 ->
  utf8_decode (b0 :: b1 :: b2 :: b3 :: rest) =
  ((b0 - 240) * 262144 + (b1 - 128) * 4096 + (b2 - 128) * 64 + (b3 - 128))
    :: utf8_decode rest.
Proof.
  intros H0 H1 H2 H3. cbn [utf8_decode]. unfold cont.
  replace (b0 <? 128) with false by (symmetry; apply Z.ltb_ge; lia).
  rewrite (range_false_hi 194 b0 223), (range_false_hi 224 b0 239),
    (range_true 240 b0 244), H1, (range_true 128 b2 191), (range_true 128 b3 191) by lia.
  reflexivity.
Qed.

(** Decoding undoes the encoding of one scalar value. *)
Lemma utf8_decode_encode_cp (c : Z) (rest : list Z) :
  scalar c -> utf8_decode (utf8_encode_cp c ++ rest) = c :: utf8_decode rest.
Proof.
  intros [Hr Hs]. unfold utf8_encode_cp.
  pose proof (Z.div_mod c 64 ltac:(lia)) as E1.
  pose proof (Z.mod_pos_bound c 64 ltac:(lia)) as B1.
  pose proof (Z.div_mod (c / 64) 64 ltac:(lia)) as E2.
  pose proof (Z.mod_pos_bound (c / 64) 64 ltac:(lia)) as B2.
  pose proof (Z.div_mod (c / 64 / 64) 64 ltac:(lia)) as E3.
  pose proof (Z.mod_pos_bound (c / 64 / 64) 64 ltac:(lia)) as B3.
  assert (D2 : c / 4096 = c / 64 / 64) by (rewrite Z.div_div by lia; reflexivity).
  assert (D3 : c / 262144 = c / 64 / 64 / 64)
    by (rewrite !Z.div_div by lia; reflexivity).
  rewrite D2, D3.
  set (r0 := c mod 64) in *. set (q1 := c / 64) in *.
  set (r1 := q1 mod 64) in *. set (q2 := q1 / 64) in *.
  set (r2 := q2 mod 64) in *. set (q3 := q2 / 64) in *.
  clearbody r0 q1 r1 q2 r2 q3.
  destruct (Z.ltb_spec c 128).
  { cbn [app]. rewrite dec1 by lia. reflexivity. }
  destruct (Z.ltb_spec c 2048).
  { cbn [app]. rewrite dec2 by lia. f_equal. lia. }
  destruct (Z.leb_spec 55296 c); destruct (Z.leb_spec c 57343); try lia; simpl andb;
    (destruct (Z.ltb_spec c 65536); cbn [app]).
  all: try (rewrite dec3; [f_equal; lia | lia | | lia];
            unfold second_ok3, cont;
            destruct (Z.eqb_spec (224 + q2) 224); [apply range_true; lia|];
            destruct (Z.eqb_spec (224 + q2) 237); apply range_true; lia).
  all: try lia.
  rewrite dec4; [f_equal; lia | lia | | lia | lia].
  unfold second_ok4, cont. destruct (Z.eqb_spec (240 + q3) 240); [apply range_true; lia|].
  destruct (Z.eqb_spec (240 + q3) 244); apply range_true; lia.
Qed.

(** [buf.toString()] of a well-formed UTF-8 body gives back its text. *)
Lemma utf8_roundtrip (s : list Z) :
  Forall scalar s -> utf8_decode (utf8_encode s) = s.
Proof.
  induction 1 as [|c s Hc Hs IH]; [reflexivity|].
  unfold utf8_encode in *. cbn [flat_map].
  rewrite utf8_decode_encode_cp by exact Hc. now rewrite IH.
Qed.

End BytesFacts.

Module HandlerFacts.
Import Bytes Js Csv Pipeline.

(** Case analysis on every scrutinee of the unfolded handler. *)
Ltac split_all :=
  repeat (cbn beta iota zeta in *;
          match goal with
          | |- context [match ?e with _ => _ end] =>
            lazymatch e with
            | context [match _ with _ => _ end] => fail
            | _ => lazymatch type of e with
                   | prod _ _ => fail
                   | _ => let E := fresh "E" in destruct e eqn:E
                   end
            end
          end).

Ltac unfold_handler :=
  unfold serve, body_error, handle, webhook, generateInvoiceFile, archiveProcessedFile,
    downloadCSVFile, parseCSVContent, check, lift, bind, emit, ret, throw in *.

Lemma sig_matches_false (sig : option string) (e : string) :
  sig_matches sig e = false <-> sig <> Some e.
Proof.
  destruct sig as [s|]; simpl.
  - rewrite String.eqb_neq. split; intros H; [intros [=]; auto | intros ->; auto].
  - split; [intros _ [=] | reflexivity].
Qed.

(** The route answers 403 exactly when the header does not match. *)
Lemma handle_403 (cfg : config) (x : ext) (b : list Z) (sig : option string) :
  fst (snd (handle cfg x (Some b) sig)) = 403 <->
  sig_matches sig (expected_signature cfg b) = false.
Proof.
  unfold handle, webhook.
  destruct (sig_matches sig (expected_signature cfg b)) eqn:Hs; cbn -[expected_signature].
  - unfold_handler. split_all; cbn; split; intros H; discriminate H.
  - split; reflexivity.
Qed.

(** A rejected signature ends the run before any step. *)
Lemma handle_mismatch (cfg : config) (x : ext) (b : list Z) (sig : option string) :
  sig_matches sig (expected_signature cfg b) = false ->
  handle cfg x (Some b) sig = ([], (403, "Unauthorized"%string)).
Proof. intros H. unfold handle, webhook. rewrite H. reflexivity. Qed.

End HandlerFacts.

Module SelectFacts.
Import Js Pipeline.

Lemma hd_insert (e : entry) (acc : list entry) :
  hd_error (insert_desc e acc) =
  match hd_error acc with
  | None => Some e
  | Some x => if server_modified e <=? server_modified x then Some x else Some e
  end.
Proof.
  destruct acc as [|x r]; cbn; [reflexivity|].
  destruct (server_modified e <=? server_modified x); reflexivity.
Qed.

(** The head of the insertion-sorted prefix is the first entry of
    maximal timestamp among the entries seen so far. *)
Lemma sort_head_fold (l seen acc : list entry) :
  match hd_error acc with
  | None => seen = []
  | Some e => exists pre post, seen = pre ++ e :: post /\
      Forall (fun y => server_modified y < server_modified e) pre /\
      Forall (fun y => server_modified y <= server_modified e) post
  end ->
  match hd_error (fold_left (fun a e => insert_desc e a) l acc) with
  | None => seen ++ l = []
  | Some e => exists pre post, seen ++ l = pre ++ e :: post /\
      Forall (fun y => server_modified y < server_modified e) pre /\
      Forall (fun y => server_modified y <= server_modified e) post
  end.
Proof.
  induction l as [|y l IH] in seen, acc |- *; intros H.
  - rewrite app_nil_r. exact H.
  - cbn [fold_left].
    replace (seen ++ y :: l) with ((seen ++ [y]) ++ l)
      by (rewrite <- app_assoc; reflexivity).
    apply IH. rewrite hd_insert. destruct (hd_error acc) as [x|].
    + destruct H as (pre & post & -> & Hpre & Hpost).
      destruct (Z.leb_spec (server_modified y) (server_modified x)).
      * exists pre, (post ++ [y]). split; [rewrite <- app_assoc; reflexivity|].
        split; [exact Hpre|]. apply Forall_app. split; [exact Hpost|]. constructor; auto.
      * exists (pre ++ x :: post), []. split; [rewrite <- app_assoc; reflexivity|].
        split; [|constructor]. apply Forall_app. split.
        -- eapply Forall_impl; [|exact Hpre]. cbn. intros a Ha. lia.
        -- constructor; [lia|]. eapply Forall_impl; [|exact Hpost]. cbn. intros a Ha. lia.
    + subst seen. exists [], []. split; [reflexivity|]. split; constructor.
Qed.

Lemma csv_files_spec (entries : list entry) :
  match csv_files entries with
  | [] => filter is_csv_file entries = []
  | e :: _ => exists pre post, filter is_csv_file entries = pre ++ e :: post /\
      Forall (fun y => server_modified y < server_modified e) pre /\
      Forall (fun y => server_modified y <= server_modified e) post
  end.
Proof.
  pose proof (sort_head_fold (filter is_csv_file entries) [] [] eq_refl) as H.
  unfold csv_files, sort_desc. destruct (fold_left _ _ _) as [|e r]; exact H.
Qed.

Lemma csv_files_head (entries : list entry) (e : entry) (r : list entry) :
  csv_files entries = e :: r -> In e entries /\ is_csv_file e = true.
Proof.
  intros H. pose proof (csv_files_spec entries) as S. rewrite H in S.
  destruct S as (pre & post & Hf & _ & _).
  apply filter_In. rewrite Hf. apply in_or_app. right. left. reflexivity.
Qed.

End SelectFacts.

Module NumberFacts.
Import Js.

(** [Qred] leaves an integer as it is. *)
Lemma Qred_inject_Z (z : Z) : Qred (inject_Z z) = inject_Z z.
Proof.
  unfold Qred, inject_Z. cbn [Qnum Qden].
  pose proof (Z.ggcd_gcd z 1) as Hg. pose proof (Z.ggcd_correct_divisors z 1) as Hd.
  destruct (Z.ggcd z 1) as [g [a b]]. cbn in Hg. rewrite Z.gcd_1_r in Hg. subst g.
  destruct Hd as [Ha Hb]. rewrite Z.mul_1_l in Ha, Hb. subst. reflexivity.
Qed.

Lemma round_div_exact (x y : Z) : 0 < y -> round_div (x * y) y = x.
Proof.
  intros Hy. unfold round_div. rewrite Z.div_mul, Z.mod_mul by lia.
  rewrite (proj2 (Z.ltb_lt _ _)) by lia. reflexivity.
Qed.

Lemma round_div_1 (x : Z) : round_div x 1 = x.
Proof. rewrite <- (Z.mul_1_r x) at 1. apply round_div_exact. lia. Qed.

Lemma round_div_nonneg (x y : Z) : 0 <= x -> 0 < y -> 0 <= round_div x y.
Proof.
  intros Hx Hy. pose proof (Z.div_pos x y Hx Hy). unfold round_div.
  destruct (2 * (x mod y) <? y), (y <? 2 * (x mod y)), (Z.even (x / y)); lia.
Qed.

Lemma floor_log2_int (a : Z) : 0 < a -> floor_log2 a 1 = Z.log2 a.
Proof.
  intros Ha. unfold floor_log2. rewrite Z.log2_1, Z.sub_0_r.
  pose proof (Z.log2_spec a Ha) as [H _]. pose proof (Z.log2_nonneg a).
  rewrite (proj2 (Z.leb_le 0 _)) by lia. rewrite (proj2 (Z.leb_le _ _)) by lia.
  reflexivity.
Qed.

Lemma pow_53_1024 : 2 ^ 53 < 2 ^ 1024.
Proof. apply Z.ltb_lt. reflexivity. Qed.

(** Integers below 2^53 are Numbers: [to_number] leaves them as they are. *)
Lemma to_number_int_small (z : Z) : Z.abs z < 2 ^ 53 -> to_number (inject_Z z) = Fin (inject_Z z).
Proof.
  intros Hz. destruct (Z.eq_dec z 0) as [->|Hnz]; [reflexivity|].
  unfold to_number. cbn [Qnum Qden inject_Z]. cbv zeta.
  rewrite floor_log2_int by lia.
  assert (Hl : Z.log2 (Z.abs z) < 53) by (apply Z.log2_lt_pow2; lia).
  pose proof (Z.log2_nonneg (Z.abs z)).
  rewrite Z.max_l by lia. pose proof pow_53_1024.
  assert (Hs : (if z <? 0 then - Z.abs z else Z.abs z) = z)
    by (destruct (Z.ltb_spec z 0); lia).
  destruct (Z.leb_spec 0 (Z.log2 (Z.abs z) - 52)) as [He|He].
  - replace (Z.log2 (Z.abs z) - 52) with 0 by lia. cbn [Z.leb Z.compare].
    change (1 * 2 ^ 0) with 1. rewrite round_div_1.
    rewrite (proj2 (Z.leb_gt _ _)) by lia. rewrite Z.mul_1_r, Hs.
    rewrite Qred_inject_Z. reflexivity.
  - set (k := - (Z.log2 (Z.abs z) - 52)).
    assert (Hk : 0 < k) by lia.
    idtac.
    rewrite round_div_1.
    assert (Hp : 0 < 2 ^ k) by (apply Z.pow_pos_nonneg; lia).
    rewrite (proj2 (Z.leb_gt _ _)).
    2:{ replace (1024 - (Z.log2 (Z.abs z) - 52)) with (1024 + k) by lia.
        rewrite Z.pow_add_r by lia. nia. }
    f_equal. rewrite <- (Qred_inject_Z z). apply Qred_complete.
    unfold Qeq. cbn [Qnum Qden inject_Z]. rewrite Z2Pos.id by exact Hp.
    destruct (Z.ltb_spec z 0); lia.
Qed.


(** Rounding keeps the sign: a value >= 0 rounds to +Infinity or to a
    value >= 0. *)
Lemma to_number_nonneg (q : Q) : (0 <= q)%Q ->
  to_number q = Inf false \/ exists q', to_number q = Fin q' /\ (0 <= q')%Q.
Proof.
  destruct q as [n d]. intros Hn. unfold Qle in Hn. cbn [Qnum Qden] in Hn.
  unfold to_number. cbn [Qnum Qden]. cbv zeta.
  rewrite (proj2 (Z.ltb_ge n 0)) by lia.
  set (e := Z.max _ _).
  destruct (Z.leb_spec 0 e) as [He|He].
  - assert (Hp : 0 < 2 ^ e) by (apply Z.pow_pos_nonneg; lia).
    assert (Hm : 0 <= round_div (Z.abs n) (Z.pos d * 2 ^ e))
      by (apply round_div_nonneg; lia).
    destruct (2 ^ 1024 <=? _); [left; reflexivity|]. right. eexists. split; [reflexivity|].
    change 0%Q with (Qred 0). apply Qred_le. unfold Qle. cbn [Qnum Qden inject_Z]. nia.
  - assert (Hp : 0 < 2 ^ (- e)) by (apply Z.pow_pos_nonneg; lia).
    assert (Hm : 0 <= round_div (Z.abs n * 2 ^ (- e)) (Z.pos d))
      by (apply round_div_nonneg; lia).
    destruct (2 ^ (1024 - e) <=? _); [left; reflexivity|]. right. eexists. split; [reflexivity|].
    change 0%Q with (Qred 0). apply Qred_le. unfold Qle. cbn [Qnum Qden]. lia.
Qed.

End NumberFacts.

Module FieldFacts.
Import Js Csv.

Lemma digit_not_ws (c : ascii) : is_digit c = true -> is_ws c = false.
Proof.
  unfold is_digit, is_ws. cbv zeta. intros H.
  apply andb_prop in H as [H1 H2]. apply Nat.leb_le in H1, H2.
  repeat match goal with
         | |- context [Nat.eqb ?a ?b] => destruct (Nat.eqb_spec a b); [lia|]
         end.
  reflexivity.
Qed.

Lemma digit_neq (c d : ascii) : is_digit c = true -> is_digit d = false ->
  Ascii.eqb c d = false /\ Ascii.eqb d c = false.
Proof.
  intros Hc Hd. destruct (Ascii.eqb_spec c d) as [->|]; [congruence|].
  split; [reflexivity|]. destruct (Ascii.eqb_spec d c); congruence.
Qed.

Lemma drop_ws_digit (c : ascii) (l : list ascii) :
  is_digit c = true -> drop_ws (c :: l) = c :: l.
Proof. intros H. simpl. rewrite (digit_not_ws c H). reflexivity. Qed.

Lemma sign_prefix_digit (c : ascii) (l : list ascii) :
  is_digit c = true -> sign_prefix (c :: l) = (false, c :: l).
Proof.
  intros H. unfold sign_prefix.
  rewrite (proj1 (digit_neq c "-" H eq_refl)), (proj1 (digit_neq c "+" H eq_refl)).
  reflexivity.
Qed.

Lemma take_digits_app (d rest : list ascii) :
  forallb is_digit d = true ->
  (forall c r, rest = c :: r -> is_digit c = false) ->
  take_digits (d ++ rest) = (d, rest).
Proof.
  intros Hd Hr. induction d as [|c d IH].
  - destruct rest as [|c r]; [reflexivity|]. simpl. rewrite (Hr c r eq_refl). reflexivity.
  - simpl in Hd. apply andb_prop in Hd as [Hc Hd].
    simpl. rewrite Hc, (IH Hd). reflexivity.
Qed.

(** [parseFloat] on [d1.d2] followed by nothing or by a comma. *)
Lemma parseFloat_decimal (d1 d2 rest : list ascii) :
  forallb is_digit d1 = true -> forallb is_digit d2 = true ->
  (d1 <> [] \/ d2 <> []) ->
  (rest = [] \/ exists r, rest = ","%char :: r) ->
  parseFloat (string_of_list_ascii (d1 ++ "."%char :: d2 ++ rest)) = to_number (dec_value d1 d2 0).
Proof.
  intros H1 H2 Hne Hr. unfold parseFloat.
  rewrite list_ascii_of_string_of_list_ascii.
  assert (Hr' : forall c r, rest = c :: r -> is_digit c = false).
  { intros c r ->. destruct Hr as [Hr|[r' Hr]]; [discriminate|].
    injection Hr; intros; subst; reflexivity. }
  assert (Hl : exists neg_free, drop_ws (d1 ++ "."%char :: d2 ++ rest) = neg_free /\
            sign_prefix neg_free = (false, d1 ++ "."%char :: d2 ++ rest) /\
            starts_with (list_ascii_of_string "Infinity") (d1 ++ "."%char :: d2 ++ rest) = false).
  { destruct d1 as [|c d1'].
    - eexists; repeat split; reflexivity.
    - simpl in H1. apply andb_prop in H1 as [Hc _].
      exists (c :: d1' ++ "."%char :: d2 ++ rest).
      split; [apply drop_ws_digit; exact Hc|].
      split; [apply sign_prefix_digit; exact Hc|].
      cbn [app list_ascii_of_string starts_with].
      rewrite (proj2 (digit_neq c "I" Hc eq_refl)). reflexivity. }
  destruct Hl as [l0 [-> [-> ->]]].
  rewrite (take_digits_app d1 ("."%char :: d2 ++ rest) H1)
    by (intros c r Hcr; injection Hcr; intros; subst; reflexivity).
  cbn iota beta zeta. rewrite (take_digits_app d2 rest H2 Hr').
  destruct d1 as [|c1 d1'], d2 as [|c2 d2'];
    [destruct Hne as [Hne|Hne]; contradiction Hne; reflexivity| | |];
    destruct Hr as [->|[r ->]]; reflexivity.
Qed.

(** [parseFloat] on a string of digits only. *)
Lemma parseFloat_int (d : list ascii) :
  forallb is_digit d = true -> d <> [] ->
  parseFloat (string_of_list_ascii d) = to_number (dec_value d [] 0).
Proof.
  intros Hd Hne. unfold parseFloat.
  rewrite list_ascii_of_string_of_list_ascii.
  destruct d as [|c d']; [contradiction|].
  pose proof Hd as Hd'. simpl in Hd'. apply andb_prop in Hd' as [Hc _].
  rewrite (drop_ws_digit c d' Hc), (sign_prefix_digit c d' Hc).
  cbn [list_ascii_of_string starts_with].
  rewrite (proj2 (digit_neq c "I" Hc eq_refl)). cbn [andb].
  pose proof (take_digits_app (c :: d') [] Hd) as Ht.
  rewrite app_nil_r in Ht. rewrite Ht by discriminate.
  reflexivity.
Qed.

Lemma replace_first_comma_digits (d : list ascii) :
  forallb is_digit d = true -> replace_first_comma d = d.
Proof.
  induction d as [|c d IH]; intros H; [reflexivity|].
  simpl in H. apply andb_prop in H as [Hc H].
  simpl. rewrite (proj1 (digit_neq c "," Hc eq_refl)), (IH H). reflexivity.
Qed.

Lemma replace_first_comma_app (d r : list ascii) :
  forallb is_digit d = true ->
  replace_first_comma (d ++ ","%char :: r) = d ++ "."%char :: r.
Proof.
  induction d as [|c d IH]; intros H; [reflexivity|].
  simpl in H. apply andb_prop in H as [Hc H].
  simpl. rewrite (proj1 (digit_neq c "," Hc eq_refl)), (IH H). reflexivity.
Qed.

Lemma string_of_list_ascii_app (a b : list ascii) :
  string_of_list_ascii (a ++ b) = (string_of_list_ascii a ++ string_of_list_ascii b)%string.
Proof. induction a as [|c a IH]; simpl; [reflexivity|]. rewrite IH. reflexivity. Qed.

Lemma drop_ws_length (l : list ascii) : (List.length (drop_ws l) <= List.length l)%nat.
Proof. induction l as [|c l IH]; simpl; [lia|]. destruct (is_ws c); simpl; lia. Qed.

Lemma drop_ws_idem (l : list ascii) : drop_ws (drop_ws l) = drop_ws l.
Proof.
  induction l as [|c l IH]; [reflexivity|]. simpl.
  destruct (is_ws c) eqn:E; [exact IH|]. simpl. rewrite E. reflexivity.
Qed.

Lemma drop_ws_snoc (l : list ascii) (c : ascii) :
  is_ws c = false -> drop_ws (l ++ [c]) = drop_ws l ++ [c].
Proof.
  intros Hc. induction l as [|a l IH]; simpl; [rewrite Hc; reflexivity|].
  destruct (is_ws a); [exact IH|reflexivity].
Qed.

Lemma head_clean (a : list ascii) :
  drop_ws a = a -> drop_ws (rev (drop_ws (rev a))) = rev (drop_ws (rev a)).
Proof.
  destruct a as [|c a]; intros H; [reflexivity|].
  simpl in H. destruct (is_ws c) eqn:E.
  - pose proof (drop_ws_length a) as Hlen. rewrite H in Hlen. simpl in Hlen. lia.
  - simpl. rewrite (drop_ws_snoc _ _ E), rev_app_distr. simpl. rewrite E. reflexivity.
Qed.

Lemma trim_idem (s : string) : trim (trim s) = trim s.
Proof.
  unfold trim. rewrite list_ascii_of_string_of_list_ascii.
  set (a := drop_ws (list_ascii_of_string s)).
  assert (Ha : drop_ws a = a) by apply drop_ws_idem.
  rewrite (head_clean a Ha), rev_involutive, drop_ws_idem. reflexivity.
Qed.

Lemma split_aux_cons (sep : ascii) (l cur : list ascii) :
  exists x xs, split_aux sep l cur = x :: xs.
Proof.
  revert cur. induction l as [|c l IH]; intros cur; simpl; [eauto|].
  destruct (Ascii.eqb c sep); eauto.
Qed.

Lemma concat_cons (sep a : string) (l : list string) :
  l <> [] -> String.concat sep (a :: l) = (a ++ sep ++ String.concat sep l)%string.
Proof. destruct l; [contradiction|reflexivity]. Qed.

Lemma split_aux_concat (sep : ascii) (l cur : list ascii) :
  String.concat (String sep EmptyString) (split_aux sep l cur) =
  string_of_list_ascii (rev cur ++ l).
Proof.
  revert cur. induction l as [|c l IH]; intros cur.
  - simpl. rewrite app_nil_r. reflexivity.
  - simpl. destruct (Ascii.eqb_spec c sep) as [->|Hne].
    + destruct (split_aux_cons sep l []) as (x & xs & Hx).
      rewrite concat_cons by (rewrite Hx; discriminate). rewrite IH.
      rewrite (string_of_list_ascii_app (rev cur)). reflexivity.
    + rewrite IH. simpl. rewrite <- app_assoc. reflexivity.
Qed.

Lemma split_aux_length (sep : ascii) (l cur : list ascii) :
  List.length (split_aux sep l cur) = S (count_occ ascii_dec l sep).
Proof.
  revert cur. induction l as [|c l IH]; intros cur; [reflexivity|].
  simpl. destruct (Ascii.eqb_spec c sep) as [->|Hne].
  - destruct (ascii_dec sep sep); [|contradiction]. simpl. rewrite IH. reflexivity.
  - destruct (ascii_dec c sep); [contradiction|]. apply IH.
Qed.

Lemma split_aux_no_sep (sep : ascii) (l cur : list ascii) :
  ~ In sep cur ->
  Forall (fun t => ~ In sep (list_ascii_of_string t)) (split_aux sep l cur).
Proof.
  revert cur. induction l as [|c l IH]; intros cur Hcur; simpl.
  - constructor; [|constructor].
    rewrite list_ascii_of_string_of_list_ascii. rewrite <- in_rev. exact Hcur.
  - destruct (Ascii.eqb_spec c sep) as [->|Hne].
    + constructor; [|apply IH; simpl; tauto].
      rewrite list_ascii_of_string_of_list_ascii. rewrite <- in_rev. exact Hcur.
    + apply IH. simpl. intros [H|H]; [congruence|contradiction].
Qed.


Lemma parseInt10_digits (s : string) (d rest : list ascii) (neg : bool) :
  forallb is_digit d = true -> d <> [] ->
  (forall c r, rest = c :: r -> is_digit c = false) ->
  drop_ws (list_ascii_of_string s) = (if neg then "-"%char :: d ++ rest else d ++ rest) ->
  parseInt10 (Some s) = to_number (inject_Z ((if neg then -1 else 1) * digits_value 0 d)).
Proof.
  intros Hd Hne Hr Hs. unfold parseInt10, to_string. rewrite Hs.
  assert (Hsp : sign_prefix (if neg then "-"%char :: d ++ rest else d ++ rest) =
                (neg, d ++ rest)).
  { destruct neg; [reflexivity|]. destruct d as [|c d]; [contradiction|].
    simpl in Hd. apply andb_prop in Hd as [Hc _]. apply sign_prefix_digit. exact Hc. }
  rewrite Hsp. rewrite (take_digits_app d rest Hd Hr).
  destruct d; [contradiction|]. reflexivity.
Qed.

End FieldFacts.

Module SheetFacts.
Import Js Csv Pipeline.

Lemma sheet_add_row_other (ws : sheet) (row : list (option cell)) (c r : Z) (a : Z * Z) :
  snd a <> r -> sheet_add_row ws row c r a = ws a.
Proof.
  revert ws c. induction row as [|v row IH]; intros ws c Ha; [reflexivity|].
  simpl. rewrite IH by exact Ha. destruct v; [|reflexivity].
  unfold set_cell. cbn [fst snd].
  destruct (snd a =? r) eqn:E; [apply Z.eqb_eq in E; contradiction|].
  rewrite andb_false_r. reflexivity.
Qed.

Lemma sheet_add_row_ext (ws1 ws2 : sheet) (row : list (option cell)) (c r : Z) (a : Z * Z) :
  ws1 a = ws2 a -> sheet_add_row ws1 row c r a = sheet_add_row ws2 row c r a.
Proof.
  revert ws1 ws2 c. induction row as [|v row IH]; intros ws1 ws2 c H; [exact H|].
  simpl. apply IH. destruct v; [|exact H].
  unfold set_cell. destruct (_ && _)%bool; [reflexivity|exact H].
Qed.

Lemma add_products_below (ws : sheet) (ps : list product) (row : Z) (a : Z * Z) :
  snd a < row -> add_products ws ps row a = ws a.
Proof.
  revert ws row. induction ps as [|p ps IH]; intros ws row Ha; [reflexivity|].
  cbn [add_products]. rewrite IH by lia. apply sheet_add_row_other. lia.
Qed.

Lemma add_products_row (ws : sheet) (ps : list product) (row : Z) (i : nat)
    (p : product) (c : Z) :
  nth_error ps i = Some p ->
  add_products ws ps row (c, row + Z.of_nat i) =
  sheet_add_row ws (invoice_row p) 0 (row + Z.of_nat i) (c, row + Z.of_nat i).
Proof.
  revert ws row i. induction ps as [|q ps IH]; intros ws row i H;
    [destruct i; discriminate|].
  destruct i as [|i].
  - cbn in H. injection H as ->. change (Z.of_nat 0) with 0. rewrite Z.add_0_r.
    cbn [add_products]. apply add_products_below. cbn [snd]. lia.
  - cbn in H. cbn [add_products].
    replace (row + Z.of_nat (S i)) with (row + 1 + Z.of_nat i) by lia.
    rewrite (IH _ _ _ H). apply sheet_add_row_ext. apply sheet_add_row_other.
    cbn [snd]. lia.
Qed.

Lemma invoice_row_cells (ws : sheet) (p : product) (r : Z) :
  let w := sheet_add_row ws (invoice_row p) 0 r in
  w (0, r) = match productId p with Some v => Some (CStr v) | None => ws (0, r) end /\
  w (1, r) = match style p with Some v => Some (CStr v) | None => ws (1, r) end /\
  w (2, r) = match productName p with Some v => Some (CStr v) | None => ws (2, r) end /\
  w (3, r) = ws (3, r) /\
  w (4, r) = Some (CNum (amount p)) /\
  w (5, r) = Some (CNum (rrp p)).
Proof.
  unfold invoice_row.
  destruct (productId p), (style p), (productName p);
    cbn; unfold set_cell; cbn; rewrite ?Z.eqb_refl; cbn;
    repeat split; reflexivity.
Qed.

Lemma fill_invoice_row (ws : sheet) (bn : string) (ps : list product) (i : nat)
    (p : product) (c : Z) :
  nth_error ps i = Some p ->
  fill_invoice ws bn ps (c, 13 + Z.of_nat i) =
  sheet_add_row ws (invoice_row p) 0 (13 + Z.of_nat i) (c, 13 + Z.of_nat i).
Proof.
  intros H. unfold fill_invoice. rewrite (add_products_row _ _ 13 i p c H).
  apply sheet_add_row_ext. apply sheet_add_row_other. cbn [snd]. lia.
Qed.

Lemma length_app (s t : string) :
  String.length (s ++ t) = (String.length s + String.length t)%nat.
Proof. induction s as [|c s IH]; simpl; [reflexivity|]. rewrite IH. reflexivity. Qed.

Lemma substring_app_r (s t : string) (k : nat) :
  substring (String.length s) k (s ++ t) = substring 0 k t.
Proof. induction s as [|c s IH]; [reflexivity|]. exact IH. Qed.

Lemma substring_prefix (s t : string) :
  substring 0 (String.length s) (s ++ t) = s.
Proof.
  induction s as [|c s IH]; [destruct t; reflexivity|]. simpl. rewrite IH. reflexivity.
Qed.

Lemma strip_csv_suffix (s : string) : strip_csv (s ++ ".csv") = s.
Proof.
  unfold strip_csv, ends_with. cbv zeta. rewrite length_app.
  change (String.length ".csv") with 4%nat.
  replace (String.length s + 4 - 4)%nat with (String.length s) by lia.
  rewrite substring_app_r.
  replace (Nat.leb 4 (String.length s + 4)) with true by (symmetry; apply Nat.leb_le; lia).
  cbn [andb String.eqb substring Ascii.eqb]. simpl. apply substring_prefix.
Qed.

End SheetFacts.

Module TextFacts.
Import Js Csv Pipeline.

Lemma list_ascii_of_string_app (s t : string) :
  list_ascii_of_string (s ++ t) = list_ascii_of_string s ++ list_ascii_of_string t.
Proof. induction s as [|c s IH]; simpl; [reflexivity|]. rewrite IH. reflexivity. Qed.

Lemma forallb_filter_id {A} (f : A -> bool) (l : list A) :
  forallb f l = true -> filter f l = l.
Proof.
  induction l as [|a l IH]; simpl; [reflexivity|].
  intros H. apply andb_prop in H as [Ha Hl]. rewrite Ha, (IH Hl). reflexivity.
Qed.

(** Character facts, checked on all 256 characters. *)
Lemma key_char_fixed (c : ascii) :
  is_key_char c = true ->
  is_ws c = false /\ negb (Ascii.eqb c dq || Ascii.eqb c "\")%bool = true /\
  is_word c = true /\ lower_char c = c.
Proof.
  destruct c as [[] [] [] [] [] [] [] []]; vm_compute;
    intros H; try discriminate H; repeat split.
Qed.

Lemma word_lower_key (c : ascii) : is_word c = true -> is_key_char (lower_char c) = true.
Proof. destruct c as [[] [] [] [] [] [] [] []]; vm_compute; intros H; congruence. Qed.

Lemma drop_ws_keys (l : list ascii) : forallb is_key_char l = true -> drop_ws l = l.
Proof.
  destruct l as [|c l]; [reflexivity|]. simpl. intros H.
  apply andb_prop in H as [Hc _]. rewrite (proj1 (key_char_fixed c Hc)). reflexivity.
Qed.

Lemma collapse_ws_keys (l : list ascii) (b : bool) :
  forallb is_key_char l = true -> collapse_ws l b = l.
Proof.
  revert b. induction l as [|c l IH]; intros b H; [reflexivity|].
  simpl in H. apply andb_prop in H as [Hc Hl]. simpl.
  rewrite (proj1 (key_char_fixed c Hc)), (IH false Hl). reflexivity.
Qed.

(** A string made of key characters is a fixed point of [mapHeaders]. *)
Lemma mapHeader_keys (l : list ascii) :
  forallb is_key_char l = true -> mapHeader (string_of_list_ascii l) = string_of_list_ascii l.
Proof.
  intros H. unfold mapHeader, trim, to_lower. cbv zeta.
  rewrite !list_ascii_of_string_of_list_ascii.
  assert (Hr : forallb is_key_char (rev l) = true).
  { rewrite forallb_forall in *. intros c Hc. apply H. apply in_rev. exact Hc. }
  rewrite (drop_ws_keys l H), (drop_ws_keys (rev l) Hr), rev_involutive.
  rewrite ?list_ascii_of_string_of_list_ascii.
  assert (Hq : filter (fun c => negb (Ascii.eqb c dq || Ascii.eqb c "\")%bool) l = l).
  { apply forallb_filter_id. rewrite forallb_forall in *. intros c Hc.
    apply (key_char_fixed c (H c Hc)). }
  rewrite Hq, (collapse_ws_keys l false H).
  rewrite (forallb_filter_id is_word l).
  2:{ rewrite forallb_forall in *. intros c Hc. apply (key_char_fixed c (H c Hc)). }
  rewrite ?list_ascii_of_string_of_list_ascii.
  f_equal. rewrite <- (map_id l) at 2. apply map_ext_in.
  intros c Hc. rewrite forallb_forall in H. apply (key_char_fixed c (H c Hc)).
Qed.

Lemma mapHeader_chars (h : string) :
  forallb is_key_char (list_ascii_of_string (mapHeader h)) = true.
Proof.
  unfold mapHeader, to_lower. cbv zeta.
  rewrite !list_ascii_of_string_of_list_ascii.
  apply forallb_forall. intros c Hc. apply in_map_iff in Hc as (d & <- & Hd).
  apply filter_In in Hd as [_ Hd]. apply word_lower_key. exact Hd.
Qed.

Lemma in_drop_ws (c : ascii) (l : list ascii) : In c (drop_ws l) -> In c l.
Proof.
  induction l as [|a l IH]; simpl; [auto|].
  destruct (is_ws a); simpl; [intros H; right; apply IH, H | auto].
Qed.

Lemma in_trim (c : ascii) (s : string) :
  In c (list_ascii_of_string (trim s)) -> In c (list_ascii_of_string s).
Proof.
  unfold trim. rewrite list_ascii_of_string_of_list_ascii.
  intros H. apply in_rev in H. apply in_drop_ws in H. apply in_rev in H.
  apply in_drop_ws in H. exact H.
Qed.

Lemma in_removelast {A} (a : A) (l : list A) : In a (removelast l) -> In a l.
Proof.
  induction l as [|b l IH]; simpl; [auto|].
  destruct l as [|b' l']; [contradiction|]. intros [->|H]; [left; reflexivity|].
  right. apply IH, H.
Qed.

Lemma in_strip_quotes (c : ascii) (s : string) :
  In c (list_ascii_of_string (strip_quotes s)) -> In c (list_ascii_of_string s).
Proof.
  unfold strip_quotes. cbv zeta. rewrite list_ascii_of_string_of_list_ascii.
  set (l := list_ascii_of_string s).
  assert (Htl : forall l', In c (tl l') -> In c l') by (intros [|? ?]; simpl; auto).
  destruct (match l with c :: _ => Ascii.eqb c dq | [] => false end);
  destruct (match rev l with | c0 :: _ => _ | [] => false end);
  intros H; repeat (apply in_removelast in H || apply Htl in H); exact H.
Qed.

Lemma strip_quotes_wrapped (s : string) :
  strip_quotes (String dq (s ++ String dq EmptyString)) = s.
Proof.
  unfold strip_quotes. cbv zeta.
  cbn [list_ascii_of_string]. rewrite list_ascii_of_string_app. cbn [list_ascii_of_string].
  replace (Ascii.eqb dq dq) with true by reflexivity. cbn [tl rev].
  rewrite rev_unit. cbn [app].
  replace (Nat.eqb (List.length (dq :: list_ascii_of_string s ++ [dq])) 1) with false
    by (cbn [List.length]; rewrite length_app; cbn [List.length];
        symmetry; apply Nat.eqb_neq; lia).
  cbn [andb negb]. rewrite removelast_last. apply string_of_list_ascii_of_string.
Qed.

Lemma strip_quotes_plain (l : list ascii) :
  match l with c :: _ => Ascii.eqb c dq | [] => false end = false ->
  match rev l with c :: _ => Ascii.eqb c dq | [] => false end = false ->
  strip_quotes (string_of_list_ascii l) = string_of_list_ascii l.
Proof.
  intros H1 H2. unfold strip_quotes. cbv zeta.
  rewrite list_ascii_of_string_of_list_ascii, H1.
  destruct (rev l) as [|c r]; [reflexivity|]. rewrite H2. reflexivity.
Qed.

Lemma split_aux_nosep_app (sep : ascii) (w l cur : list ascii) :
  ~ In sep w -> split_aux sep (w ++ l) cur = split_aux sep l (rev w ++ cur).
Proof.
  revert cur. induction w as [|c w IH]; intros cur H; [reflexivity|].
  simpl. destruct (Ascii.eqb_spec c sep) as [->|Hne]; [exfalso; apply H; left; reflexivity|].
  rewrite IH by (intros Hin; apply H; right; exact Hin).
  rewrite <- app_assoc. reflexivity.
Qed.

(** [s.split(sep)] undoes [pieces.join(sep)] when no piece holds [sep]. *)
Lemma split_join (sep : ascii) (pieces : list string) :
  pieces <> [] -> Forall (fun t => ~ In sep (list_ascii_of_string t)) pieces ->
  split sep (String.concat (String sep EmptyString) pieces) = pieces.
Proof.
  unfold split. induction pieces as [|p ps IH]; intros Hne H; [contradiction|].
  inversion H as [|? ? Hp Hps]; subst.
  destruct ps as [|q qs].
  - cbn [String.concat]. rewrite <- (app_nil_r (list_ascii_of_string p)).
    rewrite (split_aux_nosep_app sep _ [] [] Hp). cbn.
    rewrite app_nil_r, rev_involutive, string_of_list_ascii_of_string. reflexivity.
  - rewrite FieldFacts.concat_cons by discriminate.
    rewrite !list_ascii_of_string_app. cbn [list_ascii_of_string app].
    rewrite (split_aux_nosep_app sep _ _ [] Hp). cbn [split_aux].
    rewrite Ascii.eqb_refl, app_nil_r, rev_involutive, string_of_list_ascii_of_string.
    f_equal. apply IH; [discriminate | exact Hps].
Qed.

Lemma split_nonempty (sep : ascii) (s : string) : split sep s <> [].
Proof.
  unfold split. destruct (FieldFacts.split_aux_cons sep (list_ascii_of_string s) [])
    as (x & xs & ->). discriminate.
Qed.

(** [digits_value] reads a list left to right. *)
Lemma digits_value_app (acc : Z) (l1 l2 : list ascii) :
  digits_value acc (l1 ++ l2) = digits_value (digits_value acc l1) l2.
Proof. revert acc. induction l1 as [|c l1 IH]; intros acc; [reflexivity|]. apply IH. Qed.

Lemma digit_char (n : Z) :
  0 <= n < 10 ->
  let c := ascii_of_nat (Z.to_nat (48 + n)) in
  is_digit c = true /\ Z.of_nat (nat_of_ascii c) - 48 = n.
Proof.
  intros Hn. cbv zeta. rewrite nat_ascii_embedding by lia.
  unfold is_digit. rewrite nat_ascii_embedding by lia. split; [|lia].
  apply andb_true_intro. split; apply Nat.leb_le; lia.
Qed.

(** The decimal rendering of [digits_of]. *)
Lemma digits_of_S (f : nat) (n : Z) (acc : string) :
  digits_of (S f) n acc =
  if n <? 10 then String (ascii_of_nat (Z.to_nat (48 + n mod 10))) acc
  else digits_of f (n / 10) (String (ascii_of_nat (Z.to_nat (48 + n mod 10))) acc).
Proof. reflexivity. Qed.

Lemma digits_of_spec (fuel : nat) (n : Z) (acc : string) :
  0 <= n < 10 ^ Z.of_nat (S fuel) ->
  exists d, list_ascii_of_string (digits_of (S fuel) n acc) = d ++ list_ascii_of_string acc /\
    forallb is_digit d = true /\ d <> [] /\ digits_value 0 d = n.
Proof.
  revert n acc. induction fuel as [|f IH]; intros n acc Hn; rewrite digits_of_S.
  all: assert (Hm : 0 <= n mod 10 < 10) by (apply Z.mod_pos_bound; lia).
  all: destruct (digit_char (n mod 10) Hm) as [Hd Hv].
  all: destruct (Z.ltb_spec n 10) as [Hlt|Hge];
       [ exists [ascii_of_nat (Z.to_nat (48 + n mod 10))];
         cbn [list_ascii_of_string app forallb digits_value];
         rewrite Hd, Hv, (Z.mod_small n 10) by lia;
         split; [reflexivity|]; split; [reflexivity|]; split; [discriminate|]; lia
       | ].
  - cbn in Hn. lia.
  - destruct (IH (n / 10) (String (ascii_of_nat (Z.to_nat (48 + n mod 10))) acc))
      as (d & Hl & Hdd & Hne & Hval).
    { split; [apply Z.div_pos; lia|].
      rewrite Nat2Z.inj_succ, Z.pow_succ_r in Hn by lia.
      apply Z.div_lt_upper_bound; lia. }
    exists (d ++ [ascii_of_nat (Z.to_nat (48 + n mod 10))]).
    rewrite Hl. cbn [list_ascii_of_string]. rewrite <- app_assoc. split; [reflexivity|].
    rewrite forallb_app, Hdd. cbn [forallb]. rewrite Hd. split; [reflexivity|].
    split; [destruct d; [contradiction|discriminate]|].
    rewrite digits_value_app, Hval. cbn [digits_value]. rewrite Hv.
    pose proof (Z.div_mod n 10). lia.
Qed.

Lemma take_digits_digits (l d r : list ascii) :
  take_digits l = (d, r) -> forallb is_digit d = true.
Proof.
  revert d r. induction l as [|c l IH]; intros d r H; simpl in H.
  - injection H as <- <-. reflexivity.
  - destruct (is_digit c) eqn:Hc.
    + destruct (take_digits l) as [d' r'] eqn:E. injection H as <- <-.
      simpl. rewrite Hc. apply (IH d' r' eq_refl).
    + injection H as <- <-. reflexivity.
Qed.

Lemma digits_value_nonneg (acc : Z) (d : list ascii) :
  0 <= acc -> forallb is_digit d = true -> 0 <= digits_value acc d.
Proof.
  revert acc. induction d as [|c d IH]; intros acc Ha H; [exact Ha|].
  simpl in H. apply andb_prop in H as [Hc Hd]. simpl. apply IH; [|exact Hd].
  unfold is_digit in Hc. cbv zeta in Hc. apply andb_prop in Hc as [H1 _].
  apply Nat.leb_le in H1. lia.
Qed.

Lemma dec_value_nonneg (d1 d2 : list ascii) (e : Z) :
  forallb is_digit d1 = true -> forallb is_digit d2 = true -> (0 <= dec_value d1 d2 e)%Q.
Proof.
  intros H1 H2. unfold dec_value. cbv zeta.
  assert (Hm : 0 <= digits_value 0 (d1 ++ d2))
    by (apply digits_value_nonneg; [lia | rewrite forallb_app, H1, H2; reflexivity]).
  rewrite Qred_correct.
  destruct (0 <=? e - Z.of_nat (List.length d2)) eqn:E.
  - unfold Qle. simpl. apply Z.leb_le in E.
    assert (0 <= 10 ^ (e - Z.of_nat (List.length d2))) by (apply Z.pow_nonneg; lia). nia.
  - unfold Qle. simpl. lia.
Qed.

(** [parseFloat] of a string whose first character starts no white
    space, sign or [Infinity] is NaN, +Infinity or a non-negative number. *)
Lemma parseFloat_unsigned (l : list ascii) :
  match l with
  | c :: _ => (is_ws c || Ascii.eqb c "-" || Ascii.eqb c "+" || Ascii.eqb "I" c)%bool = false
  | [] => True
  end ->
  parseFloat (string_of_list_ascii l) = NaN \/
  parseFloat (string_of_list_ascii l) = Inf false \/
  exists q, parseFloat (string_of_list_ascii l) = Fin q /\ (0 <= q)%Q.
Proof.
  intros Hh. unfold parseFloat. rewrite list_ascii_of_string_of_list_ascii.
  assert (Hpre : drop_ws l = l /\ sign_prefix l = (false, l) /\
                 starts_with (list_ascii_of_string "Infinity") l = false).
  { destruct l as [|c r]; [repeat split|].
    repeat rewrite orb_false_iff in Hh. destruct Hh as [[[Hw Hm] Hp] Hi].
    split; [cbn [drop_ws]; rewrite Hw; reflexivity|].
    split; [unfold sign_prefix; rewrite Hm, Hp; reflexivity|].
    cbn [starts_with list_ascii_of_string]. rewrite Hi. reflexivity. }
  destruct Hpre as (-> & -> & ->). cbv iota beta zeta.
  destruct (take_digits l) as [d1 l2] eqn:E1.
  pose proof (take_digits_digits _ _ _ E1) as H1.
  destruct (match l2 with
            | c :: r => if Ascii.eqb c "." then take_digits r else ([], l2)
            | [] => ([], [])
            end) as [d2 l3] eqn:E2.
  assert (H2 : forallb is_digit d2 = true).
  { destruct l2 as [|c r]; [injection E2 as <- <-; reflexivity|].
    destruct (Ascii.eqb c "."); [exact (take_digits_digits _ _ _ E2)|].
    injection E2 as <- <-. reflexivity. }
  destruct d1, d2; [left; reflexivity| | |]; right;
    apply NumberFacts.to_number_nonneg, dec_value_nonneg; assumption.
Qed.

Lemma filter_keep_chars (l : list ascii) :
  forallb (fun c => (is_digit c || Ascii.eqb c "," || Ascii.eqb c ".")%bool)
    (replace_first_comma (filter keep_num_char l)) = true.
Proof.
  assert (H : forallb (fun c => (is_digit c || Ascii.eqb c ",")%bool) (filter keep_num_char l) = true).
  { apply forallb_forall. intros c Hc. apply filter_In in Hc as [_ Hc]. exact Hc. }
  revert H. generalize (filter keep_num_char l). intros m.
  induction m as [|c m IH]; simpl; [reflexivity|]. intros H.
  apply andb_prop in H as [Hc Hm].
  destruct (Ascii.eqb c ",") eqn:E; simpl.
  - rewrite forallb_forall in *. intros d Hd. specialize (Hm d Hd).
    apply orb_true_iff in Hm as [Hm|Hm]; rewrite Hm; [reflexivity|].
    rewrite !orb_true_r. reflexivity.
  - rewrite orb_false_r in Hc. rewrite Hc. simpl. apply IH, Hm.
Qed.

Lemma num_char_head (c : ascii) :
  (is_digit c || Ascii.eqb c "," || Ascii.eqb c ".")%bool = true ->
  (is_ws c || Ascii.eqb c "-" || Ascii.eqb c "+" || Ascii.eqb "I" c)%bool = false.
Proof. destruct c as [[] [] [] [] [] [] [] []]; vm_compute; congruence. Qed.

End TextFacts.

Module ExtraFacts.
Import Bytes Js Csv Pipeline.

(** *** [cleanedCsv] *)

Lemma clean_csv_split (s : string) :
  split "010" (clean_csv s) = map (fun l => strip_quotes (trim l)) (split "010" s).
Proof.
  unfold clean_csv. apply TextFacts.split_join.
  - destruct (split "010" s) eqn:E;
      [exfalso; exact (TextFacts.split_nonempty _ _ E) | discriminate].
  - pose proof (FieldFacts.split_aux_no_sep "010" (list_ascii_of_string s) []
                  (fun H => H)) as Hn.
    apply Forall_map. eapply Forall_impl; [|exact Hn]. cbv beta. intros t Ht Hin.
    apply Ht, TextFacts.in_trim, TextFacts.in_strip_quotes, Hin.
Qed.

(** *** [path.basename] *)

Lemma last_split_aux (sep : ascii) (l w cur : list ascii) (d : string) :
  ~ In sep w ->
  last (split_aux sep (l ++ sep :: w) cur) d = string_of_list_ascii w.
Proof.
  intros Hw. revert cur. induction l as [|c l IH]; intros cur.
  - cbn [app split_aux]. rewrite Ascii.eqb_refl.
    replace (split_aux sep w []) with (split_aux sep (w ++ []) [])
      by (rewrite app_nil_r; reflexivity).
    rewrite (TextFacts.split_aux_nosep_app sep w [] [] Hw).
    cbn [split_aux]. rewrite app_nil_r, rev_involutive. reflexivity.
  - cbn [app split_aux]. destruct (Ascii.eqb c sep); [|apply IH].
    destruct (FieldFacts.split_aux_cons sep (l ++ sep :: w) []) as (x & xs & Hx).
    rewrite <- (IH []), Hx. reflexivity.
Qed.

Lemma basename_dir (dir n : string) :
  ~ In "/"%char (list_ascii_of_string n) ->
  basename (dir ++ "/" ++ n) = n.
Proof.
  intros Hn. unfold basename, split.
  rewrite TextFacts.list_ascii_of_string_app. cbn [append list_ascii_of_string].
  rewrite last_split_aux by exact Hn. apply string_of_list_ascii_of_string.
Qed.

(** *** Decimal rendering *)

Lemma z_to_string_digits (n : Z) :
  0 <= n < 10 ^ 64 ->
  forallb is_digit (list_ascii_of_string (z_to_string n)) = true /\
  list_ascii_of_string (z_to_string n) <> [] /\
  digits_value 0 (list_ascii_of_string (z_to_string n)) = n.
Proof.
  intros Hn. unfold z_to_string.
  destruct (Z.ltb_spec n 0) as [Hneg|_]; [lia|].
  destruct (TextFacts.digits_of_spec 63 n EmptyString) as (d & Hl & Hd & Hne & Hv);
    [exact Hn|].
  rewrite Hl. cbn [list_ascii_of_string]. rewrite app_nil_r. auto.
Qed.

Lemma drop_ws_digits (d : list ascii) :
  forallb is_digit d = true -> drop_ws d = d.
Proof.
  destruct d as [|c d]; [reflexivity|]. cbn [forallb]. intros H.
  apply andb_prop in H as [Hc _]. apply FieldFacts.drop_ws_digit, Hc.
Qed.

(** *** Length and alphabet of the signature *)

Lemma round_length (st : list Z) (k w : Z) :
  List.length st = 8%nat -> List.length (round st k w) = 8%nat.
Proof.
  intros H. do 8 (destruct st as [|? st]; [discriminate H|]).
  destruct st; [reflexivity | discriminate H].
Qed.

Lemma rounds_length (st ks ws : list Z) :
  List.length st = 8%nat -> List.length (rounds st ks ws) = 8%nat.
Proof.
  revert st ws. induction ks as [|k ks IH]; intros st ws H; [exact H|].
  destruct ws as [|w ws]; [exact H|]. apply IH, round_length, H.
Qed.

Lemma compress_length (h b : list Z) :
  List.length h = 8%nat -> List.length (compress h b) = 8%nat.
Proof.
  intros H. unfold compress. rewrite length_map, length_combine, rounds_length, H;
    [reflexivity | exact H].
Qed.

Lemma blocks_length (fuel : nat) (h m : list Z) :
  List.length h = 8%nat -> List.length (blocks fuel h m) = 8%nat.
Proof.
  revert h m. induction fuel as [|f IH]; intros h m H; [exact H|].
  destruct m as [|b m]; [exact H|]. apply IH, compress_length, H.
Qed.

Lemma flat_map_word_bytes (ws : list Z) :
  List.length (flat_map word_bytes ws) = (4 * List.length ws)%nat /\
  Forall (fun b => 0 <= b < 256) (flat_map word_bytes ws).
Proof.
  induction ws as [|w ws [IHl IHf]]; [split; [reflexivity | constructor]|].
  cbn [flat_map]. rewrite length_app. replace (List.length (word_bytes w)) with 4%nat by reflexivity.
  split; [cbn [List.length]; lia|].
  apply Forall_app. split; [|exact IHf].
  unfold word_bytes. repeat constructor; apply Z.mod_pos_bound; lia.
Qed.

Lemma sha256_bytes (m : list Z) :
  List.length (sha256 m) = 32%nat /\ Forall (fun b => 0 <= b < 256) (sha256 m).
Proof.
  unfold sha256. cbv zeta.
  destruct (flat_map_word_bytes (blocks (List.length (pad m)) H256 (pad m))) as [Hl Hf].
  rewrite Hl, blocks_length by reflexivity. split; [reflexivity | exact Hf].
Qed.

Lemma hex_digit_lower (n : Z) : 0 <= n < 16 -> is_hex_lower (hex_digit n) = true.
Proof.
  intros Hn. unfold hex_digit, is_hex_lower. cbv zeta.
  destruct (Z.ltb_spec n 10); rewrite nat_ascii_embedding by lia.
  - rewrite (proj2 (Nat.leb_le 48 _)), (proj2 (Nat.leb_le _ 57)) by lia. reflexivity.
  - rewrite (proj2 (Nat.leb_le 97 _)), (proj2 (Nat.leb_le _ 102)) by lia.
    apply orb_true_r.
Qed.

Lemma hex_spec (bs : list Z) :
  Forall (fun b => 0 <= b < 256) bs ->
  String.length (hex bs) = (2 * List.length bs)%nat /\
  forallb is_hex_lower (list_ascii_of_string (hex bs)) = true.
Proof.
  induction bs as [|b bs IH]; intros H; [split; reflexivity|].
  inversion H as [|? ? Hb Hbs]; subst. destruct (IH Hbs) as [Hl Hc].
  cbn [hex String.length list_ascii_of_string forallb List.length].
  rewrite Hl, Hc, !hex_digit_lower.
  - split; [lia | reflexivity].
  - apply Z.mod_pos_bound. lia.
  - split; [apply Z.div_pos; lia | apply Z.div_lt_upper_bound; lia].
Qed.

Lemma expected_signature_shape (cfg : config) (b : list Z) :
  String.length (expected_signature cfg b) = 64%nat /\
  forallb is_hex_lower (list_ascii_of_string (expected_signature cfg b)) = true.
Proof.
  unfold expected_signature, hmac_sha256. cbv zeta.
  match goal with |- context [hex (sha256 ?m)] =>
    destruct (sha256_bytes m) as [Hl Hf] end.
  destruct (hex_spec _ Hf) as [Hh Hc]. rewrite Hh, Hl. split; [reflexivity | exact Hc].
Qed.

(** *** Selection order *)

Lemma hdrel_insert (x e : entry) (l : list entry) :
  server_modified e <= server_modified x ->
  HdRel (fun a b => server_modified b <= server_modified a) x l ->
  HdRel (fun a b => server_modified b <= server_modified a) x (insert_desc e l).
Proof.
  intros He Hx. destruct l as [|y r]; cbn [insert_desc]; [constructor; exact He|].
  apply HdRel_inv in Hx.
  destruct (server_modified e <=? server_modified y); constructor; assumption.
Qed.

Lemma insert_desc_sorted (e : entry) (l : list entry) :
  Sorted (fun a b => server_modified b <= server_modified a) l ->
  Sorted (fun a b => server_modified b <= server_modified a) (insert_desc e l).
Proof.
  induction l as [|x r IH]; intros H; cbn [insert_desc]; [repeat constructor|].
  apply Sorted_inv in H as [Hr Hx].
  destruct (Z.leb_spec (server_modified e) (server_modified x)).
  - constructor; [apply IH, Hr|]. apply hdrel_insert; assumption.
  - constructor; [constructor; assumption|]. constructor. lia.
Qed.

Lemma insert_desc_perm (e : entry) (l : list entry) :
  Permutation (insert_desc e l) (e :: l).
Proof.
  induction l as [|x r IH]; cbn [insert_desc]; [reflexivity|].
  destruct (server_modified e <=? server_modified x); [|reflexivity].
  eapply perm_trans; [apply perm_skip, IH | apply perm_swap].
Qed.

Lemma sort_fold_sorted (l acc : list entry) :
  Sorted (fun a b => server_modified b <= server_modified a) acc ->
  Sorted (fun a b => server_modified b <= server_modified a)
    (fold_left (fun a e => insert_desc e a) l acc).
Proof.
  revert acc. induction l as [|y l IH]; intros acc H; [exact H|].
  apply IH, insert_desc_sorted, H.
Qed.

Lemma sort_fold_perm (l acc : list entry) :
  Permutation (fold_left (fun a e => insert_desc e a) l acc) (acc ++ l).
Proof.
  revert acc. induction l as [|y l IH]; intros acc; cbn [fold_left].
  - rewrite app_nil_r. reflexivity.
  - eapply perm_trans; [apply IH|].
    eapply perm_trans; [apply Permutation_app_tail, insert_desc_perm|].
    apply Permutation_middle.
Qed.

Lemma filter_none {A} (f : A -> bool) (l : list A) :
  (forall y, In y l -> f y = false) -> filter f l = [].
Proof.
  induction l as [|a l IH]; intros H; [reflexivity|]. cbn [filter].
  rewrite (H a (or_introl eq_refl)). apply IH. intros y Hy. apply H. right. exact Hy.
Qed.

Lemma insert_desc_filter (e : entry) (l : list entry) (t : Z) :
  Sorted (fun a b => server_modified b <= server_modified a) l ->
  filter (fun y => server_modified y =? t) (insert_desc e l) =
  filter (fun y => server_modified y =? t) l ++ filter (fun y => server_modified y =? t) [e].
Proof.
  induction l as [|x r IH]; intros H; [reflexivity|]. cbn [insert_desc].
  destruct (Z.leb_spec (server_modified e) (server_modified x)).
  - apply Sorted_inv in H as [Hr _]. cbn [filter].
    destruct (server_modified x =? t); rewrite IH by exact Hr; reflexivity.
  - change (e :: x :: r) with ([e] ++ x :: r). rewrite filter_app.
    destruct (Z.eqb_spec (server_modified e) t) as [He|He].
    + rewrite (filter_none _ (x :: r)); [rewrite app_nil_r; reflexivity|].
      apply Sorted_StronglySorted in H; [|intros a b c Hab Hbc; lia].
      apply StronglySorted_inv in H as [_ Hf]. rewrite Forall_forall in Hf.
      intros y [<-|Hy]; apply Z.eqb_neq; [lia|]. specialize (Hf y Hy). cbn beta in Hf. lia.
    + replace (filter (fun y => server_modified y =? t) [e]) with (@nil entry)
        by (cbn [filter]; rewrite (proj2 (Z.eqb_neq _ _) He); reflexivity).
      rewrite app_nil_r. reflexivity.
Qed.

Lemma sort_fold_filter (l acc : list entry) (t : Z) :
  Sorted (fun a b => server_modified b <= server_modified a) acc ->
  filter (fun y => server_modified y =? t) (fold_left (fun a e => insert_desc e a) l acc) =
  filter (fun y => server_modified y =? t) acc ++ filter (fun y => server_modified y =? t) l.
Proof.
  revert acc. induction l as [|y l IH]; intros acc H; cbn [fold_left].
  - rewrite app_nil_r. reflexivity.
  - rewrite IH by (apply insert_desc_sorted, H).
    rewrite insert_desc_filter by exact H. rewrite <- app_assoc.
    change (y :: l) with ([y] ++ l). rewrite filter_app. reflexivity.
Qed.

(** *** The record transformation *)

Lemma transform_item_none (name : string) (it : record) :
  transform_item name it = None <->
  (get "locations" it = None \/ get "purchase_price_dkk" it = None \/ get "rrp" it = None).
Proof.
  unfold transform_item, parseLocations, parseNumber.
  destruct (get "locations" it), (get "purchase_price_dkk" it), (get "rrp" it);
    split; intros H; try reflexivity; try discriminate H; auto;
    repeat destruct H as [H|H]; discriminate H.
Qed.

Lemma transform_all_none (name : string) (items : list record) :
  transform_all name items = None <-> Exists (fun it => transform_item name it = None) items.
Proof.
  induction items as [|it r IH]; cbn [transform_all].
  - split; [discriminate | intros H; inversion H].
  - rewrite Exists_cons, <- IH.
    destruct (transform_item name it); [|split; [left; reflexivity | reflexivity]].
    destruct (transform_all name r); split; intros H; try discriminate H; auto.
    destruct H as [H|H]; discriminate H.
Qed.

Lemma transform_all_some (name : string) (items : list record) (ps : list product) :
  transform_all name items = Some ps ->
  List.length ps = List.length items /\ Forall (fun p => fileName p = name) ps.
Proof.
  revert ps. induction items as [|it r IH]; intros ps H; cbn [transform_all] in H.
  - injection H as <-. split; [reflexivity | constructor].
  - destruct (transform_item name it) as [p|] eqn:Ep; [|discriminate H].
    destruct (transform_all name r) as [qs|]; [|discriminate H].
    injection H as <-. destruct (IH qs eq_refl) as [Hl Hf].
    split; [cbn; rewrite Hl; reflexivity|]. constructor; [|exact Hf].
    unfold transform_item in Ep.
    destruct (parseLocations (get "locations" it)), (parseNumber (get "purchase_price_dkk" it)),
             (parseNumber (get "rrp" it)); try discriminate Ep.
    injection Ep as <-. reflexivity.
Qed.

(** *** [parseNumber] *)

Lemma parseNumber_unsigned (s : string) :
  parseNumber (Some s) = Some NaN \/ parseNumber (Some s) = Some (Inf false) \/
  exists q, parseNumber (Some s) = Some (Fin q) /\ (0 <= q)%Q.
Proof.
  unfold parseNumber. cbv zeta.
  pose proof (TextFacts.filter_keep_chars (list_ascii_of_string s)) as Hk.
  destruct (replace_first_comma (filter keep_num_char (list_ascii_of_string s)))
    as [|c l] eqn:E.
  - right. right. exists 0%Q. split; [reflexivity | apply Qle_refl].
  - cbn [forallb] in Hk. apply andb_prop in Hk as [Hc _].
    destruct (TextFacts.parseFloat_unsigned (c :: l)) as [H|[H|(q & H & Hq)]].
    + apply TextFacts.num_char_head, Hc.
    + left. rewrite H. reflexivity.
    + right. left. rewrite H. reflexivity.
    + right. right. exists q. rewrite H. split; [reflexivity | exact Hq].
Qed.

(** *** [iso] *)

Lemma length_string_of_list_ascii (l : list ascii) :
  String.length (string_of_list_ascii l) = List.length l.
Proof. induction l as [|c l IH]; cbn; [reflexivity | rewrite IH; reflexivity]. Qed.

Lemma length_list_ascii_of_string (s : string) :
  List.length (list_ascii_of_string s) = String.length s.
Proof. induction s as [|c s IH]; cbn; [reflexivity | rewrite IH; reflexivity]. Qed.

End ExtraFacts.

(* ------------------------------------------------------------------ *)
(** ** The claims *)

Module Claims.
Import Bytes Js Csv Pipeline Fixtures.

(** C1 (counterexample). The check hashes [buf.toString()], not the
    raw bytes: for the body [["\xFF"]] the HMAC of its raw bytes is
    rejected (403), while the signature the check does accept for it is
    also accepted after its byte 0xFF is changed to 0xFE (both requests
    run to 200). *)
Lemma C1_counterexample :
  fst (snd (serve cfg0 ext0 {| is_json := true; body := body_ff;
    sig_header := Some (hex (hmac_sha256 (utf8_encode (app_secret cfg0)) body_ff)) |})) = 403
  /\ fst (snd (serve cfg0 ext0 {| is_json := true; body := body_ff;
    sig_header := Some (expected_signature cfg0 (utf8_decode body_ff)) |})) = 200
  /\ fst (snd (serve cfg0 ext0 {| is_json := true; body := body_fe;
    sig_header := Some (expected_signature cfg0 (utf8_decode body_ff)) |})) = 200.
Proof. vm_compute. repeat split; reflexivity. Qed.

(** C1 (amended). For a request body [B] that is well-formed UTF-8 (the
    encoding of a string of scalar values) and that [express.json]
    parses, the route rejects with 403 exactly when the
    [x-dropbox-signature] header is not the lowercase hex HMAC-SHA256 of
    [B] keyed by the UTF-8 bytes of the secret. *)
Theorem C1_signature_check_utf8 (cfg : config) (x : ext) (cps : list Z)
    (sig : option string) :
  Forall scalar cps -> json_ok x cps = true ->
  (fst (snd (serve cfg x {| is_json := true; body := utf8_encode cps; sig_header := sig |}))
     = 403
   <-> sig <> Some (hex (hmac_sha256 (utf8_encode (app_secret cfg)) (utf8_encode cps)))).
Proof.
  intros Hs Hj. unfold serve. cbn [is_json body sig_header].
  rewrite BytesFacts.utf8_roundtrip by exact Hs. rewrite Hj.
  rewrite HandlerFacts.handle_403, HandlerFacts.sig_matches_false.
  reflexivity.
Qed.

Lemma C1_witness :
  Forall scalar body0 /\ json_ok ext0 body0 = true /\
  (fst (snd (serve cfg0 ext0 {| is_json := true; body := utf8_encode body0;
                               sig_header := Some "0"%string |})) = 403
   <-> Some "0"%string <> Some (hex (hmac_sha256 (utf8_encode (app_secret cfg0))
                                                 (utf8_encode body0)))).
Proof.
  assert (H : Forall scalar body0)
    by (unfold body0; cbn; repeat apply Forall_cons; try apply Forall_nil;
        unfold scalar; lia).
  split; [exact H|]. split; [reflexivity|].
  apply C1_signature_check_utf8; [exact H | reflexivity].
Defined.




(** C9. An authenticated run whose listing holds no CSV file delays,
    lists the folder once and answers 200 "No files to process", with
    no download, parsing, upload or move. *)
Theorem C9_no_csv_nothing_to_process (cfg : config) (x : ext) (b : list Z)
    (sig : option string) (entries : list entry) :
  sig_matches sig (expected_signature cfg b) = true ->
  list_folder x (input_folder cfg) 10 = Some entries ->
  filter is_csv_file entries = [] ->
  handle cfg x (Some b) sig =
    ([EvDelay WEBHOOK_DELAY; EvList (input_folder cfg) 10],
     (200, "No files to process"%string)).
Proof.
  intros Hs Hl Hf. unfold handle, webhook. rewrite Hs. cbn [negb].
  unfold bind, emit, lift, ret. rewrite Hl. cbv beta iota zeta.
  unfold csv_files. rewrite Hf. reflexivity.
Qed.

Lemma C9_witness :
  handle cfg0 ext_nocsv (Some body0) (Some (expected_signature cfg0 body0)) =
    ([EvDelay WEBHOOK_DELAY; EvList (input_folder cfg0) 10],
     (200, "No files to process"%string)).
Proof.
  apply (C9_no_csv_nothing_to_process cfg0 ext_nocsv body0
           (Some (expected_signature cfg0 body0))
           (match list_folder ext_nocsv (input_folder cfg0) 10 with
            | Some l => l | None => [] end));
    vm_compute; reflexivity.
Defined.

(** C3. The selected entry (head of the sorted CSV list) is the first,
    in listing order, among the file entries whose lowercased name ends
    in [.csv] having the largest [server_modified]: every such entry
    before it is strictly older, every one after it is not newer. With
    distinct timestamps it is the newest CSV file. No CSV entry means
    nothing is selected. *)
Theorem C3_newest_csv (entries : list entry) :
  match csv_files entries with
  | [] => filter is_csv_file entries = []
  | e :: _ => exists pre post, filter is_csv_file entries = pre ++ e :: post /\
      Forall (fun y => server_modified y < server_modified e) pre /\
      Forall (fun y => server_modified y <= server_modified e) post
  end.
Proof. exact (SelectFacts.csv_files_spec entries). Qed.

(** C10. Every listing a run makes is of the input folder with limit 10,
    and the CSV it downloads (the third step) is an entry of the listing
    the store returned for that request: a file absent from those
    entries is never selected. *)
Theorem C10_listing_limit (cfg : config) (x : ext) (rb : option (list Z))
    (sig : option string) :
  (forall p l, In (EvList p l) (fst (handle cfg x rb sig)) ->
     p = input_folder cfg /\ l = 10) /\
  (forall p, nth_error (fst (handle cfg x rb sig)) 2 = Some (EvDownload p) ->
     exists entries e, list_folder x (input_folder cfg) 10 = Some entries /\
       In e entries /\ is_csv_file e = true /\ p = path_display e).
Proof.
  unfold handle. HandlerFacts.unfold_handler. HandlerFacts.split_all.
  all: cbn; split;
    [ intros pp ll Hin; repeat (destruct Hin as [Hin|Hin];
        [try (injection Hin; intros; subst; split; reflexivity); discriminate Hin|]);
      contradiction
    | intros pp Hp; try discriminate Hp ].
  all: injection Hp; intros <-.
  all: match goal with
       | Hl : list_folder _ _ _ = Some ?l, Hc : csv_files ?l = ?t :: _ |- _ =>
         destruct (SelectFacts.csv_files_head _ _ _ Hc); exists l, t; auto
       end.
Qed.

Lemma C10_witness :
  nth_error (fst (handle cfg0 ext0 (Some body0) (Some (expected_signature cfg0 body0)))) 2
    = Some (EvDownload "/csv-filer/Customer_Order.csv") /\
  exists entries e, list_folder ext0 (input_folder cfg0) 10 = Some entries /\
    In e entries /\ is_csv_file e = true /\
    "/csv-filer/Customer_Order.csv"%string = path_display e.
Proof.
  assert (H : nth_error (fst (handle cfg0 ext0 (Some body0)
                 (Some (expected_signature cfg0 body0)))) 2
              = Some (EvDownload "/csv-filer/Customer_Order.csv"))
    by (vm_compute; reflexivity).
  split; [exact H|].
  exact (proj2 (C10_listing_limit cfg0 ext0 (Some body0)
                  (Some (expected_signature cfg0 body0))) _ H).
Defined.

(** C8 (counterexample). In a successful run with one product the
    invoice upload (step 6) comes before the archival move (step 7). *)
Lemma C8_counterexample :
  map kind (fst (serve cfg0 ext0 req0)) =
  ["delay"; "list"; "download /csv-filer/Customer_Order.csv"; "parse";
   "download /template/Invoice-template.xlsx";
   "upload /Teamsport-Invoice/Customer_Order_2024-01-01T00-00-00-000Z.xlsx";
   "move /processed-csv-files/Customer_Order.csv_1700000000000.csv"]%string
  /\ snd (serve cfg0 ext0 req0) = (200, "Processing complete"%string).
Proof. vm_compute. split; reflexivity. Qed.

(** C8 (amended). The archival move, when a run performs it, is the last
    step of the run and happens once; every invoice upload of the run
    comes before it and succeeded. *)
Theorem C8_archive_after_invoice (cfg : config) (x : ext) (req : request)
    (f t : string) :
  In (EvMove f t) (fst (serve cfg x req)) ->
  exists pre, fst (serve cfg x req) = pre ++ [EvMove f t] /\
    (forall f' t', ~ In (EvMove f' t') pre) /\
    (forall d ws, In (EvUpload d ws) pre -> upload x d ws = true).
Proof.
  revert f t. HandlerFacts.unfold_handler. HandlerFacts.split_all.
  all: intros f0 t0 Hin; cbn in Hin |- *.
  all: repeat (destruct Hin as [Hin|Hin]; [try discriminate Hin|]); try contradiction.
  all: injection Hin; intros; subst.
  all: match goal with
       | |- exists pre, ?l = pre ++ [?m] /\ _ => exists (removelast l)
       end.
  all: split; [reflexivity|].
  all: split; [intros f' t' Hm; cbn in Hm;
               repeat (destruct Hm as [Hm|Hm]; [discriminate Hm|]); exact Hm|].
  all: intros d ws Hu; cbn in Hu;
       repeat (destruct Hu as [Hu|Hu]; [try discriminate Hu|]); try contradiction.
  all: injection Hu; intros <- <-; assumption.
Qed.

Lemma C8_witness :
  In (EvMove "/csv-filer/Customer_Order.csv"
        "/processed-csv-files/Customer_Order.csv_1700000000000.csv")
     (fst (serve cfg0 ext0 req0)) /\
  exists pre, fst (serve cfg0 ext0 req0) =
    pre ++ [EvMove "/csv-filer/Customer_Order.csv"
              "/processed-csv-files/Customer_Order.csv_1700000000000.csv"] /\
    (forall f' t', ~ In (EvMove f' t') pre) /\
    (forall d ws, In (EvUpload d ws) pre -> upload ext0 d ws = true).
Proof.
  assert (H : In (EvMove "/csv-filer/Customer_Order.csv"
                    "/processed-csv-files/Customer_Order.csv_1700000000000.csv")
                 (fst (serve cfg0 ext0 req0)))
    by (vm_compute; do 6 right; left; reflexivity).
  split; [exact H|]. exact (C8_archive_after_invoice cfg0 ext0 req0 _ _ H).
Defined.

(** C4 (counterexample). There is no guard for an absent decimal field:
    [undefined.replace] throws, so a row without [purchase_price_dkk]
    makes the transformation fail. *)
Lemma C4_counterexample :
  get "purchase_price_dkk" item_no_price = None /\
  transform_item "Customer_Order.csv" item_no_price = None.
Proof. vm_compute. split; reflexivity. Qed.

(** C4 (amended). For a present string value [parseNumber] never throws.
    It keeps only digits and commas, turns the first comma into a
    period and reads the result with [parseFloat], which rounds to the
    nearest double: digits [d1], a comma, digits [d2] (then nothing or a
    further comma) give the double nearest to [d1.d2]; digits only give
    the double nearest to their integer value, which is that value below
    2^53; an empty cleaned string gives 0 and a lone comma NaN. "123,45"
    gives 123.45, "1.234,56" gives 1234.56, "abc" gives 0, and a 1
    followed by 309 zeros gives Infinity. An absent decimal field makes
    the transformer throw. *)
Theorem C4_decimal_fields :
  (forall s, exists n, parseNumber (Some s) = Some n) /\
  (forall s d1 d2 rest,
     forallb is_digit d1 = true -> forallb is_digit d2 = true ->
     (d1 <> [] \/ d2 <> []) -> (rest = [] \/ exists r, rest = ","%char :: r) ->
     filter keep_num_char (list_ascii_of_string s) = d1 ++ ","%char :: d2 ++ rest ->
     parseNumber (Some s) = Some (to_number (dec_value d1 d2 0))) /\
  (forall s d,
     forallb is_digit d = true -> d <> [] ->
     filter keep_num_char (list_ascii_of_string s) = d ->
     parseNumber (Some s) = Some (to_number (dec_value d [] 0))) /\
  (forall s d,
     forallb is_digit d = true -> d <> [] ->
     filter keep_num_char (list_ascii_of_string s) = d -> digits_value 0 d < 2 ^ 53 ->
     parseNumber (Some s) = Some (Fin (inject_Z (digits_value 0 d)))) /\
  (forall s, filter keep_num_char (list_ascii_of_string s) = [] ->
     parseNumber (Some s) = Some (Fin 0)) /\
  parseNumber (Some ","%string) = Some NaN /\
  parseNumber (Some "123,45"%string) = Some (to_number (12345 # 100)) /\
  parseNumber (Some "1.234,56"%string) = Some (to_number (123456 # 100)) /\
  parseNumber (Some "abc"%string) = Some (Fin 0) /\
  parseNumber (Some (string_of_list_ascii ("1"%char :: repeat "0"%char 309))) = Some (Inf false) /\
  (forall name item,
     (get "purchase_price_dkk" item = None \/ get "rrp" item = None) ->
     transform_item name item = None).
Proof.
  split; [intros s; eexists; reflexivity|].
  split.
  { intros s d1 d2 rest H1 H2 Hne Hr Hf. unfold parseNumber. cbv beta iota zeta.
    rewrite Hf, (FieldFacts.replace_first_comma_app d1 (d2 ++ rest) H1).
    destruct (d1 ++ "."%char :: d2 ++ rest) as [|c l] eqn:E;
      [destruct d1; discriminate|].
    rewrite <- E, (FieldFacts.parseFloat_decimal d1 d2 rest H1 H2 Hne Hr).
    reflexivity. }
  assert (Hint : forall s d,
     forallb is_digit d = true -> d <> [] ->
     filter keep_num_char (list_ascii_of_string s) = d ->
     parseNumber (Some s) = Some (to_number (dec_value d [] 0))).
  { intros s d Hd Hne Hf. unfold parseNumber. cbv beta iota zeta.
    rewrite Hf, (FieldFacts.replace_first_comma_digits d Hd).
    destruct d as [|c l] eqn:E; [contradiction|].
    rewrite <- E in *. rewrite (FieldFacts.parseFloat_int d Hd Hne). reflexivity. }
  split; [exact Hint|].
  split.
  { intros s d Hd Hne Hf Hb. rewrite (Hint s d Hd Hne Hf).
    unfold dec_value. cbn [List.length Z.of_nat]. rewrite app_nil_r, Z.mul_1_r.
    change (0 <=? 0 - 0) with true. cbv iota. rewrite NumberFacts.Qred_inject_Z.
    pose proof (TextFacts.digits_value_nonneg 0 d (Z.le_refl 0) Hd).
    rewrite NumberFacts.to_number_int_small by lia. reflexivity. }
  split.
  { intros s Hf. unfold parseNumber. cbv beta iota zeta. rewrite Hf. reflexivity. }
  do 5 (split; [vm_compute; reflexivity|]).
  intros name item [H|H]; unfold transform_item; rewrite H;
    destruct (parseLocations (get "locations" item)),
             (parseNumber (get "purchase_price_dkk" item)); reflexivity.
Qed.

Lemma C4_witness :
  parseNumber (Some "1.234,56"%string) =
    Some (to_number (dec_value ["1"; "2"; "3"; "4"]%char ["5"; "6"]%char 0)) /\
  parseNumber (Some "x150kr"%string) = Some (Fin (inject_Z (digits_value 0 ["1"; "5"; "0"]%char))) /\
  transform_item "Customer_Order.csv" item_no_price = None.
Proof.
  destruct C4_decimal_fields as (_ & Hb & _ & Hd & _ & _ & _ & _ & _ & _ & Hh).
  split; [|split].
  - apply (Hb _ _ _ []);
      [reflexivity | reflexivity | left; discriminate | left; reflexivity | reflexivity].
  - apply Hd; [reflexivity | discriminate | reflexivity | apply Z.ltb_lt; reflexivity].
  - apply Hh. left. reflexivity.
Defined.

(** C5 (counterexample). There is no fallback for an absent
    [locations] field: [undefined.split] throws and the transformation
    fails instead of yielding an empty list. *)
Lemma C5_counterexample :
  get "locations" item_no_locations = None /\
  transform_item "Customer_Order.csv" item_no_locations = None.
Proof. vm_compute. split; reflexivity. Qed.

(** C5 (amended). For a present string value the locations are the
    pieces of the string between the '-' characters (they join back with
    '-' to the string, contain no '-', and there is one more piece than
    there are '-'), each trimmed; "A-B - C" gives ["A","B","C"]. When
    the field is absent the transformer throws. *)
Theorem C5_locations :
  (forall s : string,
     String.concat "-" (split "-" s) = s /\
     Forall (fun t => ~ In "-"%char (list_ascii_of_string t)) (split "-" s) /\
     List.length (split "-" s) = S (count_occ ascii_dec (list_ascii_of_string s) "-"%char) /\
     parseLocations (Some s) = Some (map trim (split "-" s)) /\
     Forall (fun t => trim t = t) (map trim (split "-" s))) /\
  parseLocations (Some "A-B - C"%string) = Some ["A"; "B"; "C"]%string /\
  (forall name item, get "locations" item = None -> transform_item name item = None) /\
  (forall name item p, transform_item name item = Some p ->
     exists s, get "locations" item = Some s /\ locations p = map trim (split "-" s)).
Proof.
  split.
  { intros s. unfold split. split; [|split; [|split; [|split]]].
    - rewrite FieldFacts.split_aux_concat. apply string_of_list_ascii_of_string.
    - apply FieldFacts.split_aux_no_sep. simpl. tauto.
    - apply FieldFacts.split_aux_length.
    - reflexivity.
    - apply Forall_forall. intros t Ht. apply in_map_iff in Ht as (u & <- & _).
      apply FieldFacts.trim_idem. }
  split; [vm_compute; reflexivity|].
  split.
  { intros name item H. unfold transform_item. rewrite H. reflexivity. }
  intros name item p H. unfold transform_item in H.
  destruct (get "locations" item) as [s|]; [|discriminate H].
  exists s. split; [reflexivity|].
  destruct (parseNumber (get "purchase_price_dkk" item)),
           (parseNumber (get "rrp" item)); try discriminate H.
  injection H as <-. reflexivity.
Qed.

Lemma C5_witness :
  transform_item "Customer_Order.csv" item_no_locations = None /\
  exists s, get "locations" item_negative = Some s /\
    locations (match transform_item "Customer_Order.csv" item_negative with
               | Some p => p | None => prod1 end) = map trim (split "-" s).
Proof.
  destruct C5_locations as (_ & _ & H3 & H4). split.
  - apply H3. reflexivity.
  - apply (H4 "Customer_Order.csv"%string). reflexivity.
Defined.




(** C7 (theorem). For a non-empty product list, [generateInvoiceFile]
    downloads the template and uploads one sheet, in which B5 holds the
    first product's fileName without a trailing ".csv" (case-sensitive),
    and row 13+i holds the i-th product: productId, style and productName
    in A, B and C (a missing value leaves the template's cell, as
    [sheet_add_aoa] skips undefined), D left as in the template, amount
    in E and rrp in F. *)
Theorem C7_invoice_layout (x : ext) (p0 : product) (rest : list product)
    (ws0 : sheet) (tr : list event) :
  fetch_template x TEMPLATE_PATH = Some ws0 ->
  let ps := p0 :: rest in
  let baseName := strip_csv (fileName p0) in
  let dest := ("/Teamsport-Invoice/" ++ baseName ++ "_" ++ iso_clean (now_iso x)
               ++ ".xlsx")%string in
  let ws := fill_invoice ws0 baseName ps in
  fst (generateInvoiceFile x ps tr) = tr ++ [EvDownload TEMPLATE_PATH; EvUpload dest ws] /\
  ws (1, 5) = Some (CStr baseName) /\
  (forall i p, nth_error ps i = Some p ->
     let r := 13 + Z.of_nat i in
     ws (0, r) = match productId p with Some v => Some (CStr v) | None => ws0 (0, r) end /\
     ws (1, r) = match style p with Some v => Some (CStr v) | None => ws0 (1, r) end /\
     ws (2, r) = match productName p with Some v => Some (CStr v) | None => ws0 (2, r) end /\
     ws (3, r) = ws0 (3, r) /\
     ws (4, r) = Some (CNum (amount p)) /\
     ws (5, r) = Some (CNum (rrp p))) /\
  (forall s, strip_csv (s ++ ".csv") = s).
Proof.
  intros Ht. cbv zeta. split; [|split; [|split]].
  - unfold generateInvoiceFile, check, lift, bind, emit, ret, throw.
    rewrite Ht. cbn beta iota zeta. cbn [hd_error]. cbn beta iota zeta.
    lazymatch goal with |- context [upload x ?d ?w] => destruct (upload x d w) end;
      rewrite <- app_assoc; reflexivity.
  - unfold fill_invoice. rewrite SheetFacts.add_products_below by (cbn [snd]; lia).
    reflexivity.
  - intros i p Hi.
    rewrite !(SheetFacts.fill_invoice_row _ _ _ i p _ Hi).
    apply SheetFacts.invoice_row_cells.
  - apply SheetFacts.strip_csv_suffix.
Qed.

Lemma C7_witness :
  fill_invoice (fun _ => None) (strip_csv (fileName prod1)) [prod1] (1, 5) =
    Some (CStr (strip_csv (fileName prod1))) /\
  fill_invoice (fun _ => None) (strip_csv (fileName prod1)) [prod1] (4, 13 + Z.of_nat 0) =
    Some (CNum (amount prod1)).
Proof.
  assert (Ht : fetch_template ext0 TEMPLATE_PATH = Some (fun _ => None)) by reflexivity.
  destruct (C7_invoice_layout ext0 prod1 [] (fun _ => None) [] Ht) as (_ & HB & Hrow & _).
  split; [exact HB|].
  exact (proj1 (proj2 (proj2 (proj2 (proj2 (Hrow 0%nat prod1 eq_refl)))))).
Defined.

End Claims.

(* ------------------------------------------------------------------ *)
(** ** Further properties of the handler and its helpers *)

Module Extras.
Import Bytes Js Csv Pipeline Startup Fixtures.

(** X1. [mapHeaders] yields only the characters [a-z0-9_], and mapping
    an already mapped header changes nothing. *)
Theorem X1_mapHeader_normal_form (h : string) :
  forallb is_key_char (list_ascii_of_string (mapHeader h)) = true /\
  mapHeader (mapHeader h) = mapHeader h.
Proof.
  pose proof (TextFacts.mapHeader_chars h) as H. split; [exact H|].
  rewrite <- (string_of_list_ascii_of_string (mapHeader h)).
  apply TextFacts.mapHeader_keys, H.
Qed.

(** X2. [mapValues] removes one double quote at each end before
    trimming: a value wrapped in double quotes gives its trimmed inside
    (inner quotes kept), a value with no double quote at either end is
    only trimmed, and the result is always trimmed. *)
Theorem X2_mapValue_quotes :
  (forall s, mapValue (String dq (s ++ String dq EmptyString)) = trim s) /\
  (forall v, trim (mapValue v) = mapValue v) /\
  (forall v,
     match list_ascii_of_string v with c :: _ => c <> dq | [] => True end ->
     match rev (list_ascii_of_string v) with c :: _ => c <> dq | [] => True end ->
     mapValue v = trim v).
Proof.
  split; [intros s; unfold mapValue; rewrite TextFacts.strip_quotes_wrapped; reflexivity|].
  split; [intros v; apply FieldFacts.trim_idem|].
  intros v H1 H2. unfold mapValue. f_equal.
  rewrite <- (string_of_list_ascii_of_string v).
  apply TextFacts.strip_quotes_plain.
  - destruct (list_ascii_of_string v) as [|c r]; [reflexivity|]. apply Ascii.eqb_neq, H1.
  - destruct (rev (list_ascii_of_string v)) as [|c r]; [reflexivity|]. apply Ascii.eqb_neq, H2.
Qed.

Lemma X2_witness :
  mapValue "A B "%string = trim "A B "%string.
Proof.
  apply (proj2 (proj2 X2_mapValue_quotes)); cbn; [discriminate | discriminate].
Defined.

(** X3. The pre-cleaning keeps the line structure: the lines of the
    cleaned text are the lines of the input, each trimmed and then
    stripped of one leading and one trailing double quote. *)
Theorem X3_clean_csv_lines (s : string) :
  split "010" (clean_csv s) = map (fun l => strip_quotes (trim l)) (split "010" s).
Proof. apply ExtraFacts.clean_csv_split. Qed.

(** X4. The transformation of the parsed rows fails as a whole exactly
    when some row lacks [locations], [purchase_price_dkk] or [rrp]; when
    it succeeds it gives one product per row, each with the selected
    file's name as [fileName]. *)
Theorem X4_transform_all_outcome (name : string) (items : list record) :
  (transform_all name items = None <->
   Exists (fun it => get "locations" it = None \/ get "purchase_price_dkk" it = None \/
                     get "rrp" it = None) items) /\
  (forall ps, transform_all name items = Some ps ->
     List.length ps = List.length items /\ Forall (fun p => fileName p = name) ps).
Proof.
  split.
  - rewrite ExtraFacts.transform_all_none.
    split; apply Exists_impl; intros it; apply ExtraFacts.transform_item_none.
  - apply ExtraFacts.transform_all_some.
Qed.

Lemma X4_witness :
  List.length (match transform_all "Customer_Order.csv" [item_negative; item_negative] with
               | Some ps => ps | None => [] end) = 2%nat /\
  Forall (fun p => fileName p = "Customer_Order.csv"%string)
    (match transform_all "Customer_Order.csv" [item_negative; item_negative] with
     | Some ps => ps | None => [] end).
Proof.
  apply (proj2 (X4_transform_all_outcome "Customer_Order.csv" [item_negative; item_negative])).
  vm_compute. reflexivity.
Defined.

(** X5. The selected CSV list is the CSV entries of the listing, in
    order of non-increasing [server_modified], and entries with equal
    timestamps keep their listing order (the sort is stable). *)
Theorem X5_csv_files_order (entries : list entry) :
  Sorted (fun a b => server_modified b <= server_modified a) (csv_files entries) /\
  Permutation (csv_files entries) (filter is_csv_file entries) /\
  (forall t, filter (fun e => server_modified e =? t) (csv_files entries) =
             filter (fun e => server_modified e =? t) (filter is_csv_file entries)).
Proof.
  unfold csv_files, sort_desc. split; [|split].
  - apply ExtraFacts.sort_fold_sorted. constructor.
  - apply ExtraFacts.sort_fold_perm.
  - intros t. rewrite ExtraFacts.sort_fold_filter by constructor. reflexivity.
Qed.

(** X6. Archiving [dir/n] ([n] a non-empty name without '/') moves it to
    [PROCESSED_FOLDER/n_<Date.now()>.csv]: the original name is kept
    whole, so a "x.csv" becomes "x.csv_<ms>.csv". The move is the only
    step, and archiving fails exactly when the move is rejected. *)
Theorem X6_archive_destination (cfg : config) (x : ext) (dir n : string) (tr : list event) :
  n <> EmptyString -> ~ In "/"%char (list_ascii_of_string n) ->
  let src := (dir ++ "/" ++ n)%string in
  let dest := (processed_folder cfg ++ "/" ++ n ++ "_" ++ z_to_string (now_ms x)
               ++ ".csv")%string in
  archiveProcessedFile cfg x src tr =
    (tr ++ [EvMove src dest], if move x src dest then Some tt else None).
Proof.
  intros _ Hn. cbv zeta. unfold archiveProcessedFile, emit, bind, check, ret, throw.
  rewrite ExtraFacts.basename_dir by exact Hn.
  destruct (move x _ _); reflexivity.
Qed.

Lemma X6_witness :
  archiveProcessedFile cfg0 ext0 ("/csv-filer" ++ "/" ++ "Customer_Order.csv") [] =
    ([EvMove ("/csv-filer" ++ "/" ++ "Customer_Order.csv")
        ("/processed-csv-files" ++ "/" ++ "Customer_Order.csv" ++ "_"
         ++ z_to_string (now_ms ext0) ++ ".csv")],
     Some tt)%string.
Proof.
  apply (X6_archive_destination cfg0 ext0 "/csv-filer" "Customer_Order.csv" []).
  - discriminate.
  - cbn. intros H. repeat (destruct H as [H|H]; [discriminate H|]). exact H.
Defined.

(** X7. The timestamp in the archive name is the plain decimal rendering
    of [Date.now()]: for 0 <= n < 2^53 (every integer there is a Number)
    only digits, which [parseInt(.., 10)] reads back as n. *)
Theorem X7_timestamp_decimal (n : Z) :
  0 <= n < 2 ^ 53 ->
  forallb is_digit (list_ascii_of_string (z_to_string n)) = true /\
  parseInt10 (Some (z_to_string n)) = Fin (inject_Z n).
Proof.
  intros Hn.
  assert (Hp : 2 ^ 53 <= 10 ^ 64) by (apply Z.leb_le; reflexivity).
  destruct (ExtraFacts.z_to_string_digits n) as (Hd & Hne & Hv); [lia|].
  split; [exact Hd|].
  rewrite (FieldFacts.parseInt10_digits _ (list_ascii_of_string (z_to_string n)) [] false Hd Hne).
  - rewrite Hv, Z.mul_1_l. apply NumberFacts.to_number_int_small. lia.
  - intros c r Hr. discriminate Hr.
  - rewrite app_nil_r. apply ExtraFacts.drop_ws_digits, Hd.
Qed.

Lemma X7_witness :
  forallb is_digit (list_ascii_of_string (z_to_string (now_ms ext0))) = true /\
  parseInt10 (Some (z_to_string (now_ms ext0))) = Fin (inject_Z (now_ms ext0)).
Proof.
  apply X7_timestamp_decimal.
  split; [apply Z.leb_le | apply Z.ltb_lt]; vm_compute; reflexivity.
Defined.

(** X8. The timestamp part of the invoice name has the length of
    [toISOString()] and no ':' or '.'. *)
Theorem X8_iso_clean (s : string) :
  String.length (iso_clean s) = String.length s /\
  ~ In ":"%char (list_ascii_of_string (iso_clean s)) /\
  ~ In "."%char (list_ascii_of_string (iso_clean s)).
Proof.
  unfold iso_clean. rewrite list_ascii_of_string_of_list_ascii.
  split; [rewrite ExtraFacts.length_string_of_list_ascii, length_map;
          apply ExtraFacts.length_list_ascii_of_string|].
  split; intros H; apply in_map_iff in H as (c & Hc & _);
    destruct (Ascii.eqb c ":" || Ascii.eqb c ".")%bool eqn:E; try discriminate Hc;
    subst c; discriminate E.
Qed.

(** X9. The expected signature is always 64 characters of [0-9a-f]. *)
Theorem X9_expected_signature_hex (cfg : config) (b : list Z) :
  String.length (expected_signature cfg b) = 64%nat /\
  forallb is_hex_lower (list_ascii_of_string (expected_signature cfg b)) = true.
Proof. apply ExtraFacts.expected_signature_shape. Qed.

(** X10. For a parsed JSON request, a signature header that is not 64
    characters long or holds a character outside [0-9a-f] (uppercase
    hex included) is answered 403 before any step, whatever the body. *)
Theorem X10_malformed_signature (cfg : config) (x : ext) (req : request) (s : string) :
  is_json req = true -> json_ok x (utf8_decode (body req)) = true ->
  sig_header req = Some s ->
  (String.length s <> 64%nat \/ forallb is_hex_lower (list_ascii_of_string s) = false) ->
  serve cfg x req = ([], (403, "Unauthorized"%string)).
Proof.
  intros Hj Hok Hs Hbad. unfold serve. rewrite Hj, Hok, Hs.
  apply HandlerFacts.handle_mismatch, HandlerFacts.sig_matches_false.
  intros [= Heq].
  destruct (ExtraFacts.expected_signature_shape cfg (utf8_decode (body req))) as [Hl Hc].
  rewrite <- Heq in Hl, Hc. destruct Hbad as [Hb|Hb]; congruence.
Qed.

Lemma X10_witness :
  serve cfg0 ext0 {| is_json := true; body := body0;
    sig_header := Some "0123456789ABCDEF0123456789ABCDEF0123456789ABCDEF0123456789ABCDEF"%string |}
  = ([], (403, "Unauthorized"%string)).
Proof.
  apply (X10_malformed_signature _ _ _
           "0123456789ABCDEF0123456789ABCDEF0123456789ABCDEF0123456789ABCDEF"%string);
    [reflexivity | reflexivity | reflexivity | right; vm_compute; reflexivity].
Defined.

(** X11. The webhook route itself answers with one of four responses:
    200 "Processing complete", 200 "No files to process", 403
    "Unauthorized" or 500 "Internal server error", whatever the captured
    body (or its absence) and the header. *)
Theorem X11_responses (cfg : config) (x : ext) (b : option (list Z)) (sig : option string) :
  In (snd (handle cfg x b sig))
    [(200, "Processing complete"); (200, "No files to process"); (403, "Unauthorized");
     (500, "Internal server error")]%string.
Proof.
  HandlerFacts.unfold_handler. HandlerFacts.split_all.
  all: cbn; tauto.
Qed.

(** X12. A run that reaches the archival move answers according to the
    outcome of the [files/move_v2] call alone: 200 "Processing complete"
    when the call succeeds, 500 when it reports an error. *)
Theorem X12_move_decides (cfg : config) (x : ext) (req : request) (f t : string) :
  In (EvMove f t) (fst (serve cfg x req)) ->
  snd (serve cfg x req) =
    (if move x f t then (200, "Processing complete"%string)
     else (500, "Internal server error"%string)).
Proof.
  revert f t. HandlerFacts.unfold_handler. HandlerFacts.split_all.
  all: intros f0 t0 Hin; cbn in Hin |- *.
  all: repeat (destruct Hin as [Hin|Hin]; [try discriminate Hin|]); try contradiction.
  all: injection Hin; intros; subst.
  all: match goal with E : move _ _ _ = _ |- _ => cbn in E; rewrite E end; reflexivity.
Qed.

Lemma X12_witness :
  snd (serve cfg0 ext0 req0) =
    (if move ext0 "/csv-filer/Customer_Order.csv"
          "/processed-csv-files/Customer_Order.csv_1700000000000.csv"
     then (200, "Processing complete"%string)
     else (500, "Internal server error"%string)).
Proof.
  apply X12_move_decides. vm_compute. do 6 right. left. reflexivity.
Defined.

(** X13. A run answered 200 "Processing complete" listed the input
    folder, picked the head [e] of its sorted CSV list, downloaded and
    parsed that file, transformed every row, and ended with the accepted
    move of [e] to the archive; in between, exactly when there was at
    least one product, it downloaded the template and uploaded the
    invoice named after [e] (its name without ".csv"). *)
Theorem X13_complete_run (cfg : config) (x : ext) (req : request) (tr : list event) :
  serve cfg x req = (tr, (200, "Processing complete"%string)) ->
  exists entries e rest csv rows ps,
    list_folder x (input_folder cfg) 10 = Some entries /\
    csv_files entries = e :: rest /\
    fetch_text x (path_display e) = Some csv /\
    csv_rows x (clean_csv csv) = Some rows /\
    transform_all (name e) (map map_row rows) = Some ps /\
    let archived := (processed_folder cfg ++ "/" ++ basename (path_display e) ++ "_"
                     ++ z_to_string (now_ms x) ++ ".csv")%string in
    let invoice := ("/Teamsport-Invoice/" ++ strip_csv (name e) ++ "_"
                    ++ iso_clean (now_iso x) ++ ".xlsx")%string in
    move x (path_display e) archived = true /\
    ((ps = [] /\
      tr = [EvDelay WEBHOOK_DELAY; EvList (input_folder cfg) 10;
            EvDownload (path_display e); EvParse; EvMove (path_display e) archived]) \/
     (exists ws, ps <> [] /\ fetch_template x TEMPLATE_PATH = Some ws /\
        upload x invoice (fill_invoice ws (strip_csv (name e)) ps) = true /\
        tr = [EvDelay WEBHOOK_DELAY; EvList (input_folder cfg) 10;
              EvDownload (path_display e); EvParse; EvDownload TEMPLATE_PATH;
              EvUpload invoice (fill_invoice ws (strip_csv (name e)) ps);
              EvMove (path_display e) archived])).
Proof.
  HandlerFacts.unfold_handler. HandlerFacts.split_all.
  all: intros H; try discriminate H.
  all: injection H as Htr; subst tr.
  all: match goal with
       | Hc : csv_files ?l = ?t :: ?r, Hf : fetch_text _ _ = Some ?c,
         Hr : csv_rows _ _ = Some ?rows, Ht : transform_all _ _ = Some ?ps |- _ =>
         exists l, t, r, c, rows, ps
       end.
  all: split; [reflexivity|]; do 4 (split; [assumption|]); cbv zeta.
  all: split; [assumption|].
  all: match goal with
       | Hl : Nat.ltb 0 (List.length ?ps) = false |- _ =>
         left; destruct ps; [split; reflexivity | discriminate Hl]
       | Hh : hd_error ?ps = Some ?p0, Ht : transform_all _ _ = Some ?ps |- _ =>
         right; destruct (ExtraFacts.transform_all_some _ _ _ Ht) as [_ Hfn];
         destruct ps as [|q qs]; [discriminate Hh|]; injection Hh as <-;
         inversion Hfn as [|? ? Hq _]; subst
       end.
  all: match goal with
       | Hw : fetch_template _ _ = Some ?w |- _ => exists w
       end.
  all: split; [discriminate|]; split; [first [assumption | reflexivity]|].
  all: rewrite <- Hq.
  all: split; [assumption | reflexivity].
Qed.

Lemma X13_witness :
  exists entries e rest, list_folder ext0 (input_folder cfg0) 10 = Some entries /\
    csv_files entries = e :: rest /\ path_display e = "/csv-filer/Customer_Order.csv"%string.
Proof.
  assert (H : serve cfg0 ext0 req0 =
              (fst (serve cfg0 ext0 req0), (200, "Processing complete"%string))).
  { rewrite (surjective_pairing (serve cfg0 ext0 req0)) at 1.
    f_equal; vm_compute; reflexivity. }
  destruct (X13_complete_run cfg0 ext0 req0 _ H)
    as (entries & e & rest & csv & rows & ps & Hl & Hc & _).
  exists entries, e, rest. split; [exact Hl|]. split; [exact Hc|].
  cbn in Hl. injection Hl as <-. vm_compute in Hc. injection Hc as <- _. reflexivity.
Defined.

(** X14. [generateInvoiceFile] always downloads the template first.
    With no products it throws after that download ([products[0]] is
    undefined) and uploads nothing; it succeeds exactly when there is a
    first product, the template was fetched and the upload of the filled
    sheet, named after the first product's file, was accepted. *)
Theorem X14_invoice_outcome (x : ext) (ps : list product) (tr : list event) :
  generateInvoiceFile x [] tr = (tr ++ [EvDownload TEMPLATE_PATH], None) /\
  (snd (generateInvoiceFile x ps tr) = Some tt <->
   exists p0 rest ws, ps = p0 :: rest /\ fetch_template x TEMPLATE_PATH = Some ws /\
     upload x ("/Teamsport-Invoice/" ++ strip_csv (fileName p0) ++ "_"
               ++ iso_clean (now_iso x) ++ ".xlsx")%string
       (fill_invoice ws (strip_csv (fileName p0)) ps) = true).
Proof.
  unfold generateInvoiceFile, check, lift, bind, emit, ret, throw.
  split; [destruct (fetch_template x TEMPLATE_PATH); reflexivity|].
  destruct (fetch_template x TEMPLATE_PATH) as [ws|] eqn:Ht.
  - destruct ps as [|p0 rest]; cbn.
    + split; [discriminate | intros (p0 & rest & ws' & H & _); discriminate H].
    + lazymatch goal with |- context [upload x ?d ?w] => destruct (upload x d w) eqn:Hu end.
      * split; [intros _; exists p0, rest, ws; auto | reflexivity].
      * split; [discriminate|]. intros (p1 & r1 & ws' & [= <- <-] & [= <-] & Hu').
        congruence.
  - split; [discriminate | intros (p0 & rest & ws' & _ & H & _); discriminate H].
Qed.

Lemma X14_witness :
  snd (generateInvoiceFile ext0 [prod1] []) = Some tt.
Proof.
  apply (proj2 (proj2 (X14_invoice_outcome ext0 [prod1] []))).
  exists prod1, [], (fun _ => None). split; [reflexivity|]. split; reflexivity.
Defined.

(** X15. Start-up listens (on [PORT], default 8080) exactly when the
    token and the app secret are non-empty and the probe listing of the
    input folder succeeds; with a missing or empty credential nothing
    is called and the start fails with "Missing required Dropbox
    environment variables"; the only probe is of the input folder; and
    the start fails exactly when it does not listen. *)
Theorem X15_initializeServer (e : env) (probe : string -> option string) :
  (forall p, In (Listen p) (fst (initializeServer e probe)) <->
     truthy (DROPBOX_TOKEN e) = true /\ truthy (DROPBOX_APP_SECRET e) = true /\
     probe (INPUT_FOLDER e) = None /\ p = SERVER_PORT e) /\
  ((truthy (DROPBOX_TOKEN e) && truthy (DROPBOX_APP_SECRET e))%bool = false ->
     initializeServer e probe =
       ([], Some "Missing required Dropbox environment variables"%string)) /\
  (forall p, In (InitList p) (fst (initializeServer e probe)) -> p = INPUT_FOLDER e) /\
  (snd (initializeServer e probe) = None <->
   exists p, In (Listen p) (fst (initializeServer e probe))).
Proof.
  unfold initializeServer.
  destruct (truthy (DROPBOX_TOKEN e)), (truthy (DROPBOX_APP_SECRET e)); cbn.
  2-4: split; [intros p; split; [contradiction | intros (H & H' & _); discriminate]|];
       split; [reflexivity|]; split; [contradiction|];
       split; [discriminate | intros (p & [])].
  destruct (probe (INPUT_FOLDER e)) as [msg|]; cbn.
  - split; [intros p; split; [intros [H|[]]; discriminate | intros (_ & _ & H & _); discriminate]|].
    split; [discriminate|]. split; [intros p [[= ->]|[]]; reflexivity|].
    split; [discriminate | intros (p & [H|[]]); discriminate].
  - split; [intros p; split; [intros [H|[[= <-]|[]]]; [discriminate | auto]
                             | intros (_ & _ & _ & ->); right; left; reflexivity]|].
    split; [discriminate|]. split; [intros p [[= ->]|[H|[]]]; [reflexivity | discriminate]|].
    split; [intros _; exists (SERVER_PORT e); right; left; reflexivity | reflexivity].
Qed.

Lemma X15_witness :
  initializeServer env0 (fun _ => None) =
    ([], Some "Missing required Dropbox environment variables"%string).
Proof. apply (proj1 (proj2 (X15_initializeServer env0 (fun _ => None)))). reflexivity. Defined.

(** X16. [parseNumber] never gives a negative number: the cleaning drops
    every sign, so the result is NaN (e.g. for ","), +Infinity (from
    2^1024 - 2^970 on) or a finite value >= 0, and so are the purchase
    price and the RRP of every product. *)
Theorem X16_prices_unsigned :
  (forall s, parseNumber (Some s) = Some NaN \/ parseNumber (Some s) = Some (Inf false) \/
             exists q, parseNumber (Some s) = Some (Fin q) /\ (0 <= q)%Q) /\
  (forall name item p, transform_item name item = Some p ->
     (purchasePriceDKK p = NaN \/ purchasePriceDKK p = Inf false \/
      exists q, purchasePriceDKK p = Fin q /\ (0 <= q)%Q) /\
     (rrp p = NaN \/ rrp p = Inf false \/ exists q, rrp p = Fin q /\ (0 <= q)%Q)).
Proof.
  split; [exact ExtraFacts.parseNumber_unsigned|].
  intros name item p H. unfold transform_item in H.
  destruct (parseLocations (get "locations" item)); [|discriminate H].
  destruct (get "purchase_price_dkk" item) as [s1|]; [|discriminate H].
  destruct (get "rrp" item) as [s2|]; [|discriminate H].
  pose proof (ExtraFacts.parseNumber_unsigned s1) as H1.
  pose proof (ExtraFacts.parseNumber_unsigned s2) as H2.
  destruct (parseNumber (Some s1)) as [n1|]; [|discriminate H].
  destruct (parseNumber (Some s2)) as [n2|]; [|discriminate H].
  injection H as <-. cbn.
  split; [destruct H1 as [[= ->]|[[= ->]|(q & [= ->] & Hq)]]
         | destruct H2 as [[= ->]|[[= ->]|(q & [= ->] & Hq)]]];
    eauto.
Qed.

Lemma X16_witness :
  (purchasePriceDKK (match transform_item "Customer_Order.csv" item_negative with
                     | Some p => p | None => prod1 end) = NaN \/
   purchasePriceDKK (match transform_item "Customer_Order.csv" item_negative with
                     | Some p => p | None => prod1 end) = Inf false \/
   exists q, purchasePriceDKK (match transform_item "Customer_Order.csv" item_negative with
                               | Some p => p | None => prod1 end) = Fin q /\ (0 <= q)%Q) /\
  (rrp (match transform_item "Customer_Order.csv" item_negative with
        | Some p => p | None => prod1 end) = NaN \/
   rrp (match transform_item "Customer_Order.csv" item_negative with
        | Some p => p | None => prod1 end) = Inf false \/
   exists q, rrp (match transform_item "Customer_Order.csv" item_negative with
                  | Some p => p | None => prod1 end) = Fin q /\ (0 <= q)%Q).
Proof.
  apply (proj2 X16_prices_unsigned "Customer_Order.csv"%string item_negative).
  reflexivity.
Defined.

(** X17. An authenticated run that fails before the invoice stops at the
    failing step with 500, having made no upload and no move: a rejected
    listing after the listing, a failed CSV download after that
    download, a parser error or a row the transformer rejects after the
    parse step. *)
Theorem X17_early_failures (cfg : config) (x : ext) (b : list Z) (sig : option string) :
  sig_matches sig (expected_signature cfg b) = true ->
  let pre := [EvDelay WEBHOOK_DELAY; EvList (input_folder cfg) 10] in
  (list_folder x (input_folder cfg) 10 = None ->
     handle cfg x (Some b) sig = (pre, (500, "Internal server error"%string))) /\
  (forall entries e rest,
     list_folder x (input_folder cfg) 10 = Some entries -> csv_files entries = e :: rest ->
     (fetch_text x (path_display e) = None ->
        handle cfg x (Some b) sig =
          (pre ++ [EvDownload (path_display e)], (500, "Internal server error"%string))) /\
     (forall csv, fetch_text x (path_display e) = Some csv ->
        (csv_rows x (clean_csv csv) = None \/
         exists rows, csv_rows x (clean_csv csv) = Some rows /\
           transform_all (name e) (map map_row rows) = None) ->
        handle cfg x (Some b) sig =
          (pre ++ [EvDownload (path_display e); EvParse],
           (500, "Internal server error"%string)))).
Proof.
  intros Hs. cbv zeta. unfold handle, webhook. rewrite Hs. cbn [negb].
  unfold downloadCSVFile, parseCSVContent, bind, emit, lift, ret, throw.
  split; [intros Hl; rewrite Hl; reflexivity|].
  intros entries e rest Hl Hc. rewrite Hl. cbv beta iota zeta. rewrite Hc.
  split; [intros Hf; rewrite Hf; reflexivity|].
  intros csv Hf Hp. rewrite Hf. cbv beta iota zeta.
  destruct Hp as [Hp|(rows & Hp & Ht)]; rewrite Hp; [reflexivity|].
  cbv beta iota zeta. rewrite Ht. reflexivity.
Qed.

Lemma X17_witness :
  handle cfg0 {| list_folder := list_folder ext0; fetch_text := fun _ => None;
                 fetch_template := fetch_template ext0; upload := upload ext0;
                 move := move ext0; csv_rows := csv_rows ext0; now_ms := now_ms ext0;
                 now_iso := now_iso ext0; json_ok := json_ok ext0;
                 media_ok := media_ok ext0 |}
    (Some body0) (Some (expected_signature cfg0 body0)) =
  ([EvDelay WEBHOOK_DELAY; EvList (input_folder cfg0) 10] ++
   [EvDownload (path_display e1)], (500, "Internal server error"%string)).
Proof.
  refine (proj1 (proj2 (X17_early_failures cfg0 _ body0 _ _) [e1] e1 [] _ _) _).
  - unfold sig_matches. apply String.eqb_refl.
  - reflexivity.
  - reflexivity.
  - reflexivity.
Defined.

End Extras.
